(** * Public-health job scraper: a shallow embedding of [app.py] and [app2.py]

    The two source files are near-identical variants of one Streamlit
    program.  Everything they share (the recency classifier, the ReliefWeb
    item normaliser, the relevance filter, the duplicate removal of [main])
    is embedded once; what differs lives in [Module App] (app.py) and
    [Module App2] (app2.py).

    Modelling conventions.
    - Python [str] is [string]; the text is taken to be ASCII, where
      [str.lower] only maps 'A'..'Z' to 'a'..'z'.
    - A job dict always carries the same nine keys when an adapter builds
      it, so it is a record; the two keys added later by the relevance
      filter are optional fields.
    - The network, the HTML parser and the clock are an explicit world:
      oracles for the three remote pages, a clock value threaded through
      every call, and a log of the adapter calls, requests and sleeps. *)

From Stdlib Require Import ZArith QArith Qround Lqa Ascii String List Lia.
From stdpp Require Import base gmap sets list strings.

Close Scope Q_scope.
Local Open Scope string_scope.
Local Open Scope list_scope.

(** ** Python string primitives *)

Module PyStr.

(** [c.lower()] on one ASCII character. *)
Definition ascii_lower (c : ascii) : ascii :=
  let n := nat_of_ascii c in
  if (65 <=? n)%nat && (n <=? 90)%nat then ascii_of_nat (n + 32) else c.

(** [c.upper()] on one ASCII character. *)
Definition ascii_upper (c : ascii) : ascii :=
  let n := nat_of_ascii c in
  if (97 <=? n)%nat && (n <=? 122)%nat then ascii_of_nat (n - 32) else c.

Definition ascii_isalpha (c : ascii) : bool :=
  let n := nat_of_ascii c in
  ((65 <=? n)%nat && (n <=? 90)%nat) || ((97 <=? n)%nat && (n <=? 122)%nat).

(** [s.lower()] *)
Fixpoint lower (s : string) : string :=
  match s with
  | EmptyString => EmptyString
  | String c s' => String (ascii_lower c) (lower s')
  end.

(** [s.title()]: a cased character is upper-cased when it follows an
    uncased one (or starts the string) and lower-cased otherwise. *)
Fixpoint title_from (prev_cased : bool) (s : string) : string :=
  match s with
  | EmptyString => EmptyString
  | String c s' =>
      String (if ascii_isalpha c
              then (if prev_cased then ascii_lower c else ascii_upper c)
              else c)
             (title_from (ascii_isalpha c) s')
  end.

Definition title (s : string) : string := title_from false s.

(** [s.startswith(p)] *)
Fixpoint startswith (s p : string) {struct p} : bool :=
  match p with
  | EmptyString => true
  | String a p' =>
      match s with
      | EmptyString => false
      | String b s' => if Ascii.eqb a b then startswith s' p' else false
      end
  end.

(** [p in s]: [p] occurs at some offset of [s]. *)
Fixpoint contains (s p : string) : bool :=
  startswith s p ||
  match s with
  | EmptyString => false
  | String _ s' => contains s' p
  end.

(** [s.replace(" ", by)] for the one-character pattern both URL builders use. *)
Fixpoint replace_space (by_ : string) (s : string) : string :=
  match s with
  | EmptyString => EmptyString
  | String c s' =>
      if Ascii.eqb c " "%char then by_ +:+ replace_space by_ s'
      else String c (replace_space by_ s')
  end.

(** [sep.join(parts)] *)
Fixpoint join (sep : string) (parts : list string) : string :=
  match parts with
  | [] => ""
  | [x] => x
  | x :: rest => x +:+ sep +:+ join sep rest
  end.

(** Truthiness of a string: [bool(s)]. *)
Definition truthy (s : string) : bool :=
  match s with EmptyString => false | _ => true end.

(** Declarative readings, used only in statements. *)

(** [p] occurs in [s]. *)
Definition occurs_in (p s : string) : Prop :=
  ∃ pre post, s = pre +:+ p +:+ post.

(** Some segment of [s] equals [p] up to letter case. *)
Definition occurs_in_ci (p s : string) : Prop :=
  ∃ pre mid post, s = pre +:+ mid +:+ post ∧ lower mid = lower p.

End PyStr.

(** ** The recency classifier ([is_recent_job], app.py 29-40, app2.py 24-35) *)

Definition recent_indicators : list string :=
  [ "hours ago"; "hour ago"; "today"; "just now";
    "1 day ago"; "yesterday" ].

(** [date_text] is [None] for Python's [None]. *)
Definition is_recent_job (date_text : option string) : bool :=
  match date_text with
  | None => false
  | Some t =>
      if negb (PyStr.truthy t) then false
      else
        let date_text_lower := PyStr.lower t in
        existsb (fun indicator => PyStr.contains date_text_lower indicator)
                recent_indicators
  end.

(** ** Job records

    The dict an adapter builds, with the keys in the order the source
    writes them.  [scraped_at] holds the clock reading that
    [datetime.now().isoformat()] prints.  The last two keys are absent
    until [filter_public_health_jobs] has visited the dict. *)

Record Job := mkJob {
  title : string;
  organization : string;
  location : string;
  url : string;
  date_posted : string;
  source : string;
  scraped_at : Z;
  search_term : string;
  is_recent : bool;
  relevance_score : option Q;
  is_public_health : option bool
}.

(** [job['relevance_score'] = v] *)
Definition set_relevance_score (v : Q) (job : Job) : Job :=
  mkJob (title job) (organization job) (location job) (url job)
        (date_posted job) (source job) (scraped_at job) (search_term job)
        (is_recent job) (Some v) (is_public_health job).

(** [job['is_public_health'] = b] *)
Definition set_is_public_health (b : bool) (job : Job) : Job :=
  mkJob (title job) (organization job) (location job) (url job)
        (date_posted job) (source job) (scraped_at job) (search_term job)
        (is_recent job) (relevance_score job) (Some b).

(** ** Raw entries, as the adapters read them

    A JSON item of the ReliefWeb API: every key the code reads with
    [.get] or [[...]] is optional. *)

Record api_fields := mkFields {
  f_title : option string;             (* fields.get('title') *)
  f_source : list (option string);     (* the 'name' of each fields['source'] entry *)
  f_country : list (option string);    (* the 'name' of each fields['country'] entry *)
  f_date : option (option string)      (* fields['date'], then its 'created' *)
}.

Record api_item := mkItem {
  item_id : option string;             (* item['id'] *)
  item_fields : option api_fields      (* item.get('fields') *)
}.

Definition no_fields : api_fields := mkFields None [] [] None.

(** What BeautifulSoup's [find] calls return on one candidate element; a
    text is the result of [get_text(strip=True)]. *)

Record anchor := mkAnchor {
  a_text : string;
  a_href : option string               (* the href attribute *)
}.

Record rw_article := mkArticle {
  art_h3 : option (option anchor);     (* find('h3'), then its find('a') *)
  art_dd : option string;              (* find('dd') *)
  art_country : option string;         (* find('span', class_='rw-river-article__country') *)
  art_time : option string             (* find('time') *)
}.

Record devex_card := mkCard {
  dv_h3 : option string;               (* find('h3') *)
  dv_h2 : option string;               (* find('h2') *)
  dv_a : option anchor                 (* find('a') *)
}.

(** ** The world: remote pages, parser availability, clock and log *)

Inductive adapter := ReliefwebApi | ReliefwebHtml | Devex.

Inductive event :=
| Call (a : adapter) (term : string) (max_jobs : nat)  (* an adapter method is entered *)
| GetApi (query : string) (limit : nat)                (* session.get(api, params) *)
| GetPage (address : string)                           (* session.get(url) *)
| Sleep (seconds : Z).                                 (* time.sleep *)

(** [None] stands for any exception raised while fetching or decoding. *)
Record World := mkWorld {
  BEAUTIFUL_SOUP_AVAILABLE : bool;
  reliefweb_api : string → nat → option (list api_item);
  reliefweb_page : string → option (list rw_article);
  devex_page : string → option (list devex_card)
}.

(** A computation reads the clock and returns a value, the clock after it
    and the events it logged, oldest first. *)
Definition M (A : Type) : Type := Z → A * Z * list event.

#[global] Instance M_ret : MRet M := λ A x t, (x, t, []).

#[global] Instance M_bind : MBind M := λ A B f m t,
  let '(x, t1, l1) := m t in
  let '(y, t2, l2) := f x t1 in
  (y, t2, l1 ++ l2).

Definition emit (e : event) : M unit := λ t, (tt, t, [e]).

(** [datetime.now()] *)
Definition now : M Z := λ t, (t, t, []).

(** [time.sleep(seconds)] *)
Definition sleep (seconds : Z) : M unit := λ t, (tt, (t + seconds)%Z, [Sleep seconds]).

Definition result {A} (r : A * Z * list event) : A := r.1.1.
Definition clock_after {A} (r : A * Z * list event) : Z := r.1.2.
Definition events {A} (r : A * Z * list event) : list event := r.2.

(** A [for] loop whose body either appends one record or skips the entry
    ([continue], or an exception caught inside the loop). *)
Fixpoint collect {A B} (body : A → M (option B)) (entries : list A) : M (list B) :=
  match entries with
  | [] => mret []
  | x :: rest =>
      r ← body x;
      jobs ← collect body rest;
      mret (match r with Some job => job :: jobs | None => jobs end)
  end.

(** Readings of the log, used only in statements. *)

(** How many times the HTML fallback was entered for [term]. *)
Definition html_attempts (term : string) (log : list event) : nat :=
  length (List.filter (λ e, match e with
                            | Call ReliefwebHtml term' _ => bool_decide (term' = term)
                            | _ => false
                            end) log).

(** The event passes each adapter its own default cap. *)
Definition default_cap (e : event) : Prop :=
  match e with
  | Call ReliefwebApi _ max_jobs => max_jobs = 20%nat
  | Call ReliefwebHtml _ max_jobs => max_jobs = 15%nat
  | Call Devex _ max_jobs => max_jobs = 15%nat
  | GetApi _ limit => limit = 20%nat
  | GetPage _ | Sleep _ => True
  end.

(** The event is no request and no adapter call. *)
Definition is_sleep (e : event) : Prop :=
  match e with Sleep _ => True | _ => False end.

(** An absolute link, as the specification asks of [url]. *)
Definition is_absolute_url (u : string) : bool :=
  PyStr.startswith u "http://" || PyStr.startswith u "https://".

(** The three shapes a [url] takes, one per adapter. *)
Definition api_url (job : Job) : Prop :=
  ∃ id, url job = "https://reliefweb.int/job/" +:+ id.

Definition html_url (job : Job) : Prop :=
  url job = "" ∨ ∃ href, href ≠ "" ∧ url job = "https://reliefweb.int" +:+ href.

Definition devex_url (job : Job) : Prop :=
  url job = "" ∨ PyStr.startswith (url job) "http" = true.

(** The record was scored and reached the relevance threshold. *)
Definition passed (job : Job) : Prop :=
  is_public_health job = Some true
  ∧ ∃ score, relevance_score job = Some score ∧ (0.2 <= score)%Q.

(** ** The ReliefWeb API normaliser (app.py 61-91, app2.py 56-85) *)

(** The body of the inner [try]: [None] when the entry is skipped because
    [item['id']] raises. *)
Definition reliefweb_item_job (search_term : string) (item : api_item) : M (option Job) :=
  let fields := default no_fields (item_fields item) in
  let org_name :=
    match f_source fields with
    | [] => "Unknown Organization"
    | first :: _ => default "Unknown Organization" first
    end in
  let locations := map (default "") (f_country fields) in
  let location :=
    let joined := PyStr.join ", " locations in
    if PyStr.truthy joined then joined else "Multiple Locations" in
  match item_id item with
  | None => mret None
  | Some id =>
      let date_posted :=
        match f_date fields with
        | None => "Unknown"
        | Some date => default "Unknown" date
        end in
      t ← now;
      mret (Some (mkJob (default "No title" (f_title fields))
                        org_name
                        location
                        ("https://reliefweb.int/job/" +:+ id)
                        date_posted
                        "reliefweb"
                        t
                        search_term
                        (is_recent_job (Some date_posted))
                        None None))
  end.

(** The body of the outer [try] of [scrape_reliefweb_api]: the request,
    the slice [[:max_jobs]] and the loop.  [None] when it raises. *)
Definition reliefweb_api_try (W : World) (search_term : string) (max_jobs : nat)
  : M (option (list Job)) :=
  emit (GetApi search_term max_jobs);;
  match reliefweb_api W search_term max_jobs with
  | None => mret None
  | Some data =>
      jobs ← collect (reliefweb_item_job search_term) (take max_jobs data);
      mret (Some jobs)
  end.

(** ** The relevance filter ([filter_public_health_jobs], app.py 244-271,
       app2.py 155-182) *)

Definition public_health_keywords : list string :=
  [ "public health"; "monitoring"; "evaluation"; "m&e"; "data";
    "health"; "strategic information"; "commcare"; "dhis2";
    "survey"; "research"; "impact assessment"; "health program";
    "global health"; "health systems"; "epidemiology"; "health";
    "maternal"; "child health"; "hiv"; "tb"; "malaria"; "nutrition" ].

(** [f"{job['title']} {job.get('organization', '')}".lower()] *)
Definition job_text (job : Job) : string :=
  PyStr.lower (title job +:+ " " +:+ organization job).

(** [sum(1 for keyword in public_health_keywords if keyword in job_text)] *)
Definition matches (text : string) : nat :=
  length (List.filter (λ keyword, PyStr.contains text keyword) public_health_keywords).

(** Nearest integer, ties to the even one. *)
Definition round_half_even (q : Q) : Z :=
  let f := Qfloor q in
  match (q - inject_Z f ?= 1 # 2)%Q with
  | Lt => f
  | Gt => (f + 1)%Z
  | Eq => if Z.even f then f else (f + 1)%Z
  end.

(** [round(x, 2)].  Floats are read as the rationals they approximate: the
    only quotients the program rounds are k/23 with 0 <= k <= 23, none of
    which is within float error of a rounding tie or of the 0.2 threshold. *)
Definition py_round2 (x : Q) : Q :=
  (inject_Z (round_half_even (x * 100)) / 100)%Q.

(** [matches / len(public_health_keywords)] *)
Definition relevance (job : Job) : Q :=
  (inject_Z (Z.of_nat (matches (job_text job)))
   / inject_Z (Z.of_nat (length public_health_keywords)))%Q.

(** One turn of the loop: the dict after the two assignments, and whether
    it was appended to [filtered_jobs]. *)
Definition visit_job (job : Job) : Job * bool :=
  let relevance_score := relevance job in
  if Qle_bool 0.2 relevance_score then
    (set_is_public_health true (set_relevance_score (py_round2 relevance_score) job), true)
  else
    (set_is_public_health false (set_relevance_score (py_round2 relevance_score) job), false).

(** The loop over a list of dicts held by value: what the returned list
    holds once the loop has run. *)
Fixpoint filter_loop (jobs : list Job) (filtered_jobs : list Job) : list Job :=
  match jobs with
  | [] => filtered_jobs
  | job :: rest =>
      let '(job', keep) := visit_job job in
      filter_loop rest (if keep then filtered_jobs ++ [job'] else filtered_jobs)
  end.

Definition filter_public_health_jobs (jobs : list Job) : list Job :=
  filter_loop jobs [].

(** The same loop over references into a store of dicts, as Python runs
    it: [jobs] is a list of references, each assignment updates the dict
    the reference points to, and the returned list shares those dicts.
    [None] when a reference points nowhere, which Python rules out. *)
Fixpoint filter_in_place_loop (jobs : list positive) (store : gmap positive Job)
    (filtered_jobs : list positive) : option (list positive * gmap positive Job) :=
  match jobs with
  | [] => Some (filtered_jobs, store)
  | job :: rest =>
      match store !! job with
      | None => None
      | Some d =>
          let '(d', keep) := visit_job d in
          filter_in_place_loop rest (<[job := d']> store)
            (if keep then filtered_jobs ++ [job] else filtered_jobs)
      end
  end.

Definition filter_public_health_jobs_in_place (jobs : list positive)
    (store : gmap positive Job) : option (list positive * gmap positive Job) :=
  filter_in_place_loop jobs store [].

(** Whether the dict a reference points to reaches the threshold. *)
Definition keeps (store : gmap positive Job) (job : positive) : bool :=
  match store !! job with
  | Some d => (visit_job d).2
  | None => false
  end.

(** ** Duplicate removal ([main], app.py 379-385, app2.py 282-288) *)

Fixpoint remove_duplicates_loop (all_jobs : list Job) (seen_urls : gset string)
    (unique_jobs : list Job) : list Job :=
  match all_jobs with
  | [] => unique_jobs
  | job :: rest =>
      if decide (url job ∈ seen_urls)
      then remove_duplicates_loop rest seen_urls unique_jobs
      else remove_duplicates_loop rest ({[ url job ]} ∪ seen_urls) (unique_jobs ++ [job])
  end.

Definition remove_duplicates (all_jobs : list Job) : list Job :=
  remove_duplicates_loop all_jobs ∅ [].

(** [job['url'] == u], as a test. *)
Definition has_url (u : string) (job : Job) : bool := bool_decide (url job = u).

(** ** What [main] leaves on the page *)

Inductive outcome :=
| Idle                                  (* the button was not pressed *)
| ConfigError (message : string)        (* st.error(...); return *)
| Displayed (unique_jobs : list Job).   (* display_results(unique_jobs, ...) *)

Definition default_terms : list string :=
  [ "monitoring and evaluation"; "M&E officer"; "public health"; "health data" ].

(** The checkbox loop over [enumerate(default_terms)], from index [i]. *)
Fixpoint checked_terms (checked : nat → bool) (i : nat) (terms : list string) : list string :=
  match terms with
  | [] => []
  | term :: rest =>
      if checked i then term :: checked_terms checked (S i) rest
      else checked_terms checked (S i) rest
  end.

(** ** What [display_results] puts on the page (app.py 393-459,
       app2.py 296-384)

    The summary metrics and the records handed to the table; the data
    frame, the HTML and the download buttons are presentation. *)

Inductive page :=
| Warning (message : string)            (* st.warning(...); return *)
| Results (jobs : list Job)             (* the records tabulated *)
          (total recent_count high_match_count : nat)
          (recent_section : list Job).  (* app2.py's "Recent Jobs" list *)

(** [sum(1 for job in jobs if job.get('is_recent', False))] *)
Definition count_recent (jobs : list Job) : nat :=
  length (List.filter is_recent jobs).

(** [job.get('relevance_score', 0) > 0.7] *)
Definition is_high_match (job : Job) : bool :=
  negb (Qle_bool (default 0%Q (relevance_score job)) 0.7).

(** [sum(1 for job in jobs if job.get('relevance_score', 0) > 0.7)] *)
Definition count_high_match (jobs : list Job) : nat :=
  length (List.filter is_high_match jobs).

(** ** app.py *)

Module App.

(** Default values of the [max_jobs] parameters. *)
Definition api_max_jobs : nat := 20.
Definition html_max_jobs : nat := 15.
Definition devex_max_jobs : nat := 15.

(** [scrape_reliefweb_api] (42-97): any exception of the outer [try]
    gives the empty list. *)
Definition scrape_reliefweb_api (W : World) (search_term : string) (max_jobs : nat)
  : M (list Job) :=
  emit (Call ReliefwebApi search_term max_jobs);;
  r ← reliefweb_api_try W search_term max_jobs;
  mret (default [] r).

(** The loop body of [scrape_reliefweb_html] (113-149). *)
Definition reliefweb_article_job (search_term : string) (job_element : rw_article)
  : M (option Job) :=
  let title_elem :=
    match art_h3 job_element with
    | Some h3 => h3
    | None => None
    end in
  match title_elem with
  | None => mret None
  | Some title_elem =>
      let title := a_text title_elem in
      let url_path := default "" (a_href title_elem) in
      let url := if PyStr.truthy url_path then "https://reliefweb.int" +:+ url_path else "" in
      let organization := default "Unknown Organization" (art_dd job_element) in
      let location := default "Multiple Locations" (art_country job_element) in
      let date_posted := default "Unknown" (art_time job_element) in
      t ← now;
      mret (Some (mkJob title organization location url date_posted
                        "reliefweb" t search_term
                        (is_recent_job (Some date_posted))
                        None None))
  end.

(** [scrape_reliefweb_html] (99-155) *)
Definition scrape_reliefweb_html (W : World) (search_term : string) (max_jobs : nat)
  : M (list Job) :=
  emit (Call ReliefwebHtml search_term max_jobs);;
  if negb (BEAUTIFUL_SOUP_AVAILABLE W) then mret []
  else
    let url := "https://reliefweb.int/jobs?search=" +:+ PyStr.replace_space "+" search_term in
    emit (GetPage url);;
    match reliefweb_page W url with
    | None => mret []
    | Some found =>
        collect (reliefweb_article_job search_term) (take max_jobs found)
    end.

(** The loop body of [scrape_devex] (174-208). *)
Definition devex_card_job (search_term : string) (job_element : devex_card)
  : M (option Job) :=
  let title_elem :=
    match dv_h3 job_element with
    | Some h3 => Some h3
    | None =>
        match dv_h2 job_element with
        | Some h2 => Some h2
        | None => a_text <$> dv_a job_element
        end
    end in
  match title_elem with
  | None => mret None
  | Some title =>
      if (String.length title <? 5)%nat then mret None
      else
        let link_elem := dv_a job_element in
        let url :=
          match link_elem with
          | Some a => default "" (a_href a)
          | None => ""
          end in
        let url :=
          if PyStr.truthy url && negb (PyStr.startswith url "http")
          then "https://www.devex.com" +:+ url
          else url in
        t ← now;
        mret (Some (mkJob title "Development Organization" "Global" url "Recent"
                          "devex" t search_term true None None))
  end.

(** [scrape_devex] (157-214) *)
Definition scrape_devex (W : World) (search_term : string) (max_jobs : nat)
  : M (list Job) :=
  emit (Call Devex search_term max_jobs);;
  if negb (BEAUTIFUL_SOUP_AVAILABLE W) then mret []
  else
    let url := "https://www.devex.com/jobs/search?filter[keywords]="
               +:+ PyStr.replace_space "%20" search_term in
    emit (GetPage url);;
    match devex_page W url with
    | None => mret []
    | Some found =>
        collect (devex_card_job search_term) (take max_jobs found)
    end.

(** The [if]/[elif]/[else] of [scrape_development_sites] (225-233):
    [None] for [continue]. *)
Definition scrape_site (W : World) (search_term site : string) : M (option (list Job)) :=
  if String.eqb site "reliefweb" then
    jobs ← scrape_reliefweb_api W search_term api_max_jobs;
    jobs ← match jobs with
           | [] => scrape_reliefweb_html W search_term html_max_jobs
           | _ => mret jobs
           end;
    mret (Some jobs)
  else if String.eqb site "devex" && BEAUTIFUL_SOUP_AVAILABLE W then
    jobs ← scrape_devex W search_term devex_max_jobs;
    mret (Some jobs)
  else mret None.

(** The [for site in sites] loop (223-240). *)
Fixpoint scrape_sites_loop (W : World) (search_term : string) (sites : list string)
    (all_jobs : list Job) : M (list Job) :=
  match sites with
  | [] => mret all_jobs
  | site :: rest =>
      r ← scrape_site W search_term site;
      match r with
      | None => scrape_sites_loop W search_term rest all_jobs
      | Some jobs =>
          sleep 1;;
          scrape_sites_loop W search_term rest (all_jobs ++ jobs)
      end
  end.

(** [scrape_development_sites] (216-242) *)
Definition scrape_development_sites (W : World) (search_term : string)
    (sites : option (list string)) : M (list Job) :=
  let sites := default ["reliefweb"] sites in
  scrape_sites_loop W search_term sites [].

(** The sidebar widgets of [main] (298-338). *)
Record sidebar := mkSidebar {
  term_checked : nat → bool;       (* st.sidebar.checkbox(term, key=f"term_{i}") *)
  custom_term : string;            (* st.sidebar.text_input *)
  reliefweb_checked : bool;
  devex_checked : bool;            (* as ticked; the widget is disabled without the parser *)
  max_jobs_per_search : nat;       (* st.sidebar.slider *)
  run_scraper : bool               (* st.sidebar.button *)
}.

Definition sidebar_search_terms (ui : sidebar) : list string :=
  let search_terms := checked_terms (term_checked ui) 0 default_terms in
  if PyStr.truthy (custom_term ui) && negb (bool_decide (custom_term ui ∈ search_terms))
  then search_terms ++ [custom_term ui]
  else search_terms.

Definition sidebar_sites (W : World) (ui : sidebar) : list string :=
  (if reliefweb_checked ui then ["reliefweb"] else [])
  ++ (if BEAUTIFUL_SOUP_AVAILABLE W && devex_checked ui then ["devex"] else []).

(** The [for i, search_term in enumerate(search_terms)] loop (360-377). *)
Fixpoint search_loop (W : World) (search_terms sites : list string)
    (all_jobs : list Job) : M (list Job) :=
  match search_terms with
  | [] => mret all_jobs
  | search_term :: rest =>
      jobs ← scrape_development_sites W search_term (Some sites);
      let filtered_jobs := filter_public_health_jobs jobs in
      sleep 1;;
      search_loop W rest sites (all_jobs ++ filtered_jobs)
  end.

(** [main] (273-391), from the widgets read to the call of
    [display_results]. *)
Definition main (W : World) (ui : sidebar) : M outcome :=
  let search_terms := sidebar_search_terms ui in
  let sites := sidebar_sites W ui in
  if run_scraper ui then
    if bool_decide (search_terms = []) then
      mret (ConfigError "Please select at least one search term.")
    else if bool_decide (sites = []) then
      mret (ConfigError "Please select at least one website to scrape.")
    else
      all_jobs ← search_loop W search_terms sites [];
      mret (Displayed (remove_duplicates all_jobs))
  else mret Idle.

(** [display_results] (393-459) *)
Definition display_results (jobs : list Job) : page :=
  match jobs with
  | [] => Warning "No jobs found matching your criteria. Try adjusting your search terms."
  | _ => Results jobs (length jobs) (count_recent jobs) (count_high_match jobs) []
  end.

End App.

(** ** app2.py *)

Module App2.

Definition api_max_jobs : nat := 20.

(** [get_mock_jobs] (93-130) *)
Definition get_mock_jobs (search_term : string) : M (list Job) :=
  t1 ← now;
  t2 ← now;
  t3 ← now;
  mret [ mkJob ("Public Health M&E Officer - " +:+ PyStr.title search_term)
               "World Health Organization" "Geneva, Switzerland"
               "https://reliefweb.int/job/example1" "2 hours ago"
               "reliefweb" t1 search_term true None None;
         mkJob ("Monitoring & Evaluation Specialist - " +:+ PyStr.title search_term)
               "UNICEF" "Multiple Locations"
               "https://reliefweb.int/job/example2" "1 day ago"
               "reliefweb" t2 search_term true None None;
         mkJob ("Health Data Analyst - " +:+ PyStr.title search_term)
               "International Rescue Committee" "New York, USA"
               "https://reliefweb.int/job/example3" "3 days ago"
               "reliefweb" t3 search_term false None None ].

(** [scrape_reliefweb_api] (37-91): any exception of the outer [try]
    gives the canned records. *)
Definition scrape_reliefweb_api (W : World) (search_term : string) (max_jobs : nat)
  : M (list Job) :=
  emit (Call ReliefwebApi search_term max_jobs);;
  r ← reliefweb_api_try W search_term max_jobs;
  match r with
  | Some jobs => mret jobs
  | None => get_mock_jobs search_term
  end.

(** The [if]/[else] of [scrape_development_sites] (141-144). *)
Definition scrape_site (W : World) (search_term site : string) : M (option (list Job)) :=
  if String.eqb site "reliefweb" then
    jobs ← scrape_reliefweb_api W search_term api_max_jobs;
    mret (Some jobs)
  else mret None.

(** The [for site in sites] loop (139-151). *)
Fixpoint scrape_sites_loop (W : World) (search_term : string) (sites : list string)
    (all_jobs : list Job) : M (list Job) :=
  match sites with
  | [] => mret all_jobs
  | site :: rest =>
      r ← scrape_site W search_term site;
      match r with
      | None => scrape_sites_loop W search_term rest all_jobs
      | Some jobs =>
          sleep 1;;
          scrape_sites_loop W search_term rest (all_jobs ++ jobs)
      end
  end.

(** [scrape_development_sites] (132-153) *)
Definition scrape_development_sites (W : World) (search_term : string)
    (sites : option (list string)) : M (list Job) :=
  let sites := default ["reliefweb"] sites in
  scrape_sites_loop W search_term sites [].

(** The sidebar widgets of [main] (200-241). *)
Record sidebar := mkSidebar {
  term_checked : nat → bool;
  custom_term : string;
  reliefweb_checked : bool;
  max_jobs_per_search : nat;
  show_only_recent : bool;
  run_scraper : bool
}.

Definition sidebar_search_terms (ui : sidebar) : list string :=
  let search_terms := checked_terms (term_checked ui) 0 default_terms in
  if PyStr.truthy (custom_term ui) && negb (bool_decide (custom_term ui ∈ search_terms))
  then search_terms ++ [custom_term ui]
  else search_terms.

Definition sidebar_sites (ui : sidebar) : list string :=
  if reliefweb_checked ui then ["reliefweb"] else [].

(** The [for i, search_term in enumerate(search_terms)] loop (263-280). *)
Fixpoint search_loop (W : World) (search_terms sites : list string)
    (all_jobs : list Job) : M (list Job) :=
  match search_terms with
  | [] => mret all_jobs
  | search_term :: rest =>
      jobs ← scrape_development_sites W search_term (Some sites);
      let filtered_jobs := filter_public_health_jobs jobs in
      sleep 1;;
      search_loop W rest sites (all_jobs ++ filtered_jobs)
  end.

(** [main] (184-294), from the widgets read to the call of
    [display_results]. *)
Definition main (W : World) (ui : sidebar) : M outcome :=
  let search_terms := sidebar_search_terms ui in
  let sites := sidebar_sites ui in
  if run_scraper ui then
    if bool_decide (search_terms = []) then
      mret (ConfigError "Please select at least one search term.")
    else if bool_decide (sites = []) then
      mret (ConfigError "Please select at least one website to scrape.")
    else
      all_jobs ← search_loop W search_terms sites [];
      mret (Displayed (remove_duplicates all_jobs))
  else mret Idle.

(** [display_results] (296-384) *)
Definition display_results (jobs : list Job) (show_only_recent : bool) : page :=
  match jobs with
  | [] => Warning "No jobs found matching your criteria. Try adjusting your search terms."
  | _ =>
      let jobs := if show_only_recent then List.filter is_recent jobs else jobs in
      if show_only_recent && bool_decide (jobs = []) then
        Warning "No recent jobs found in the last 24 hours."
      else
        Results jobs (length jobs) (count_recent jobs) (count_high_match jobs)
                (if show_only_recent then [] else List.filter is_recent jobs)
  end.

End App2.

(** ** Concrete worlds and inputs used by the examples below *)

Module Samples.

Definition item (id title_ org : string) : api_item :=
  mkItem (Some id) (Some (mkFields (Some title_) [Some org] [] None)).

(** The API answers every query with one posting for a driver and one for
    a public-health monitoring and evaluation officer; no HTML page can be
    fetched. *)
Definition world_two_items : World :=
  mkWorld true
    (λ _ _, Some [ item "1" "Driver" "ACME Logistics";
                   item "2" "Public Health Monitoring and Evaluation Officer" "WHO" ])
    (λ _, None) (λ _, None).

(** Every request fails. *)
Definition world_offline : World :=
  mkWorld true (λ _ _, None) (λ _, None) (λ _, None).

(** The API finds nothing; the HTML page lists one article whose title
    link has no href, and one with a relative href. *)
Definition world_html_only : World :=
  mkWorld true
    (λ _ _, Some [])
    (λ _, Some [ mkArticle (Some (Some (mkAnchor "Health Data Analyst" None)))
                           (Some "WHO") None (Some "2 hours ago");
                 mkArticle (Some (Some (mkAnchor "Nutrition Survey Lead" (Some "/job/77"))))
                           None None None ])
    (λ _, None).

(** A posting titled "public health", as an adapter hands it over. *)
Definition job_public_health : Job :=
  mkJob "public health" "" "Global" "https://example.org/job/1" "today"
        "devex" 0 "public health" true None None.

(** A store of two dicts: the first reaches the threshold, the second
    does not. *)
Definition store_two : gmap positive Job :=
  <[ 1%positive := mkJob "Public Health Monitoring and Evaluation Officer" "WHO"
                         "Geneva" "https://reliefweb.int/job/2" "today"
                         "reliefweb" 0 "public health" true None None ]>
  (<[ 2%positive := mkJob "Driver" "ACME Logistics" "Global"
                          "https://reliefweb.int/job/1" "Unknown"
                          "reliefweb" 0 "public health" false None None ]> ∅).

Definition ui_one_term : App.sidebar :=
  App.mkSidebar (λ i, bool_decide (i = 2%nat)) "" true false 15 true.

Definition ui2_one_term : App2.sidebar :=
  App2.mkSidebar (λ i, bool_decide (i = 2%nat)) "" true 15 false true.

End Samples.

(** ** The score as the specification words it

    Section 4.4 of the specification: the match count over the vocabulary
    list, divided by a vocabulary size in which a repeated entry counts
    once, rounded to two decimals.  Compared with [visit_job] below. *)

Definition spec_vocabulary_size : nat :=
  length (remove_dups public_health_keywords).

Definition spec_relevance_score (job : Job) : Q :=
  py_round2 (inject_Z (Z.of_nat (matches (job_text job)))
             / inject_Z (Z.of_nat spec_vocabulary_size))%Q.

(** ** Further readings of a run, used only in statements *)

(** The site is one [scrape_development_sites] of app.py acts on. *)
Definition known_site (W : World) (site : string) : bool :=
  String.eqb site "reliefweb"
  || (String.eqb site "devex" && BEAUTIFUL_SOUP_AVAILABLE W).

(** The search terms the API adapter was entered with, oldest first. *)
Definition api_calls (log : list event) : list string :=
  omap (λ e, match e with Call ReliefwebApi term _ => Some term | _ => None end) log.

(** The requests in the log. *)
Definition requests (log : list event) : list event :=
  List.filter (λ e, match e with GetApi _ _ | GetPage _ => true | _ => false end) log.

(** The seconds slept. *)
Definition slept (log : list event) : Z :=
  foldr (λ e acc, match e with Sleep n => (n + acc)%Z | _ => acc end) 0%Z log.

(** The item carries an id. *)
Definition has_id (item : api_item) : bool :=
  match item_id item with Some _ => true | None => false end.

(** The article has a title link inside an h3. *)
Definition has_title_link (job_element : rw_article) : bool :=
  match art_h3 job_element with Some (Some _) => true | _ => false end.

Module MoreSamples.

(** No parser installed; the API lists one item without id and one with. *)
Definition world_no_parser : World :=
  mkWorld false
    (λ _ _, Some [ mkItem None None; mkItem (Some "9") None ])
    (λ _, Some [ mkArticle (Some (Some (mkAnchor "Health Data Analyst" (Some "/job/5"))))
                           None None None ])
    (λ _, Some [ mkCard (Some "Nutrition Survey Lead") None
                        (Some (mkAnchor "Apply" (Some "/jobs/3"))) ]).

(** Devex lists a card with a relative link and a card with a short title. *)
Definition world_devex : World :=
  mkWorld true (λ _ _, None) (λ _, None)
    (λ _, Some [ mkCard (Some "Public Health Monitoring and Evaluation Data Lead") None
                        (Some (mkAnchor "Apply" (Some "/jobs/3")));
                 mkCard (Some "Job") None None ]).

Definition ui_both_sites : App.sidebar :=
  App.mkSidebar (λ i, bool_decide (i = 2%nat)) "health data" true true 15 true.

End MoreSamples.

(** * Facts *)

(** ** Strings *)

Module PyStrFacts.
Import PyStr.

Lemma app_cons a s t : String a s +:+ t = String a (s +:+ t).
Proof. reflexivity. Qed.

Lemma app_nil_r s : s +:+ "" = s.
Proof. induction s as [|a s IH]; [reflexivity|]. rewrite app_cons. by f_equal. Qed.

Lemma app_assoc s t u : (s +:+ t) +:+ u = s +:+ (t +:+ u).
Proof.
  induction s as [|a s IH]; [reflexivity|].
  rewrite !app_cons. by f_equal.
Qed.

Lemma startswith_spec s p : startswith s p = true ↔ ∃ post, s = p +:+ post.
Proof.
  revert s. induction p as [|a p IH]; intros s; simpl.
  - split; [intros _; by exists s | done].
  - destruct s as [|b s].
    + split; [done | intros [post H]; rewrite app_cons in H; discriminate].
    + destruct (Ascii.eqb_spec a b) as [->|Hne].
      * rewrite IH. split; intros [post H]; exists post.
        -- rewrite app_cons. by f_equal.
        -- rewrite app_cons in H. by injection H.
      * split; [done | intros [post H]].
        rewrite app_cons in H. injection H as Hab _. congruence.
Qed.

Lemma contains_spec s p : contains s p = true ↔ occurs_in p s.
Proof.
  unfold occurs_in. induction s as [|b s IH]; simpl.
  - rewrite orb_false_r, startswith_spec. split.
    + intros [post H]. by exists "", post.
    + intros [[|c pre] [post H]]; [by exists post|].
      rewrite app_cons in H. discriminate.
  - rewrite orb_true_iff, startswith_spec, IH. split.
    + intros [[post H] | (pre & post & H)].
      * by exists "", post.
      * exists (String b pre), post. rewrite app_cons. by f_equal.
    + intros ([|c pre] & post & H).
      * left. by exists post.
      * right. rewrite app_cons in H. injection H as _ H. by exists pre, post.
Qed.

Lemma lower_app s t : lower (s +:+ t) = lower s +:+ lower t.
Proof.
  induction s as [|a s IH]; [reflexivity|].
  rewrite app_cons. simpl. rewrite app_cons. by f_equal.
Qed.

(** A split of the lower-cased text is the image of a split of the text. *)
Lemma lower_split s a b :
  lower s = a +:+ b → ∃ s1 s2, s = s1 +:+ s2 ∧ lower s1 = a ∧ lower s2 = b.
Proof.
  revert s. induction a as [|c a IH]; intros s H.
  - by exists "", s.
  - destruct s as [|d s]; [discriminate|].
    rewrite app_cons in H. simpl in H. injection H as Hc H.
    destruct (IH s H) as (s1 & s2 & -> & <- & <-).
    exists (String d s1), s2. rewrite app_cons. simpl. by rewrite Hc.
Qed.

(** Searching the lower-cased text for a lower-case pattern is searching
    the text for the pattern up to letter case. *)
Lemma contains_lower_ci s p :
  lower p = p → contains (lower s) p = true ↔ occurs_in_ci p s.
Proof.
  intros Hp. rewrite contains_spec. unfold occurs_in, occurs_in_ci. split.
  - intros (pre & post & H).
    apply lower_split in H as (s1 & s23 & -> & <- & H).
    apply lower_split in H as (s2 & s3 & -> & H2 & <-).
    exists s1, s2, s3. split; [done | congruence].
  - intros (pre & mid & post & -> & H).
    exists (lower pre), (lower post).
    rewrite !lower_app. congruence.
Qed.

End PyStrFacts.

(** ** The recency classifier *)

Lemma recent_indicators_lower :
  Forall (λ p, PyStr.lower p = p) recent_indicators.
Proof. repeat constructor. Qed.

Lemma is_recent_job_existsb t :
  is_recent_job (Some t)
  = existsb (λ indicator, PyStr.contains (PyStr.lower t) indicator) recent_indicators.
Proof. destruct t; reflexivity. Qed.

Example is_recent_job_hours : is_recent_job (Some "2 Hours Ago") = true.
Proof. reflexivity. Qed.

Example is_recent_job_days : is_recent_job (Some "3 days ago") = false.
Proof. reflexivity. Qed.

(** C5. [is_recent_job] answers false on [None] and on the empty string,
    and on any text it answers true exactly when one of the six phrases
    occurs in the text up to letter case; so it is true on "2 Hours Ago"
    and false on "3 days ago". *)
Theorem is_recent_job_spec :
  is_recent_job None = false
  ∧ is_recent_job (Some "") = false
  ∧ (∀ date_text : string,
       is_recent_job (Some date_text) = true
       ↔ ∃ phrase,
           phrase ∈ [ "hours ago"; "hour ago"; "today"; "just now";
                      "1 day ago"; "yesterday" ]
           ∧ PyStr.occurs_in_ci phrase date_text)
  ∧ is_recent_job (Some "2 Hours Ago") = true
  ∧ is_recent_job (Some "3 days ago") = false.
Proof.
  repeat split; try reflexivity.
  - rewrite is_recent_job_existsb, existsb_exists.
    intros (p & Hin & Hc). exists p.
    apply list_elem_of_In in Hin. split; [exact Hin|].
    apply PyStrFacts.contains_lower_ci; [|exact Hc].
    by apply (proj1 (Forall_forall _ _) recent_indicators_lower).
  - intros (p & Hin & Hci).
    rewrite is_recent_job_existsb, existsb_exists.
    exists p. split; [by apply list_elem_of_In|].
    apply PyStrFacts.contains_lower_ci; [|exact Hci].
    by apply (proj1 (Forall_forall _ _) recent_indicators_lower).
Qed.

(** ** The relevance score *)

Lemma keywords_length : length public_health_keywords = 23%nat.
Proof. reflexivity. Qed.

Lemma filter_length_bound {A} (f : A → bool) (l : list A) :
  (length (List.filter f l) ≤ length l)%nat.
Proof. induction l as [|x l IH]; simpl; [lia|]. destruct (f x); simpl; lia. Qed.

Lemma matches_le text : (matches text ≤ 23)%nat.
Proof. unfold matches. rewrite <- keywords_length. apply filter_length_bound. Qed.

(** Each keyword test is a case-insensitive search of title, space,
    organization. *)
Lemma keyword_test_ci job keyword :
  keyword ∈ public_health_keywords →
  PyStr.contains (job_text job) keyword = true
  ↔ PyStr.occurs_in_ci keyword (title job +:+ " " +:+ organization job).
Proof.
  intros Hin. apply PyStrFacts.contains_lower_ci.
  revert keyword Hin. apply Forall_forall. repeat constructor.
Qed.

(** [round_half_even] returns an integer nearest to its argument. *)
Lemma round_half_even_nearest (q : Q) :
  (inject_Z (round_half_even q) - (1 # 2) <= q
   ∧ q <= inject_Z (round_half_even q) + (1 # 2))%Q.
Proof.
  unfold round_half_even.
  pose proof (Qfloor_le q) as Hlo. pose proof (Qlt_floor q) as Hhi.
  rewrite inject_Z_plus in Hhi. change (inject_Z 1) with 1%Q in Hhi.
  destruct (q - inject_Z (Qfloor q) ?= 1 # 2)%Q eqn:Hc.
  - apply Qeq_alt in Hc.
    destruct (Z.even (Qfloor q)); [|rewrite inject_Z_plus; change (inject_Z 1) with 1%Q];
      split; lra.
  - apply Qlt_alt in Hc. split; lra.
  - apply Qgt_alt in Hc. rewrite inject_Z_plus. change (inject_Z 1) with 1%Q.
    split; lra.
Qed.

(** What one turn of the loop stores, by match count. *)
Lemma visit_job_unfold job :
  let x := (inject_Z (Z.of_nat (matches (job_text job))) / inject_Z 23)%Q in
  visit_job job
  = (set_is_public_health (Qle_bool 0.2 x) (set_relevance_score (py_round2 x) job),
     Qle_bool 0.2 x).
Proof.
  intros x. unfold visit_job, relevance. rewrite keywords_length.
  change (inject_Z (Z.of_nat 23)) with (inject_Z 23). fold x.
  by destruct (Qle_bool 0.2 x).
Qed.

(** The 24 quotients k/23: the stored score lies in [0, 1], and it reaches
    0.2 exactly when the unrounded quotient does. *)
Lemma score_table :
  forallb (λ k, let x := (inject_Z (Z.of_nat k) / inject_Z 23)%Q in
                Qle_bool 0 (py_round2 x) && Qle_bool (py_round2 x) 1
                && eqb (Qle_bool 0.2 x) (Qle_bool 0.2 (py_round2 x)))
          (seq 0 24) = true.
Proof. vm_compute. reflexivity. Qed.

Lemma score_table_at job :
  let x := (inject_Z (Z.of_nat (matches (job_text job))) / inject_Z 23)%Q in
  (0 <= py_round2 x)%Q ∧ (py_round2 x <= 1)%Q
  ∧ Qle_bool 0.2 x = Qle_bool 0.2 (py_round2 x).
Proof.
  intros x. pose proof score_table as H.
  rewrite forallb_forall in H.
  specialize (H (matches (job_text job))). fold x in H.
  assert (In (matches (job_text job)) (seq 0 24)) as Hin.
  { apply in_seq. pose proof (matches_le (job_text job)). lia. }
  apply H in Hin. apply andb_true_iff in Hin as [Hin H3].
  apply andb_true_iff in Hin as [H1 H2].
  apply Qle_bool_iff in H1, H2. apply eqb_prop in H3. auto.
Qed.

(** C4. Every record the relevance filter visits ends with a
    [relevance_score] between 0.0 and 1.0 and an [is_public_health] flag
    that is true exactly when that stored, rounded score is at least 0.2. *)
Theorem relevance_score_bounds_and_flag (job : Job) :
  ∃ (score : Q) (flag : bool),
    relevance_score (visit_job job).1 = Some score
    ∧ is_public_health (visit_job job).1 = Some flag
    ∧ (0 <= score)%Q ∧ (score <= 1)%Q
    ∧ (flag = true ↔ (0.2 <= score)%Q).
Proof.
  rewrite visit_job_unfold. simpl.
  destruct (score_table_at job) as (H0 & H1 & Hflag).
  eexists _, _. repeat split; try reflexivity; try assumption.
  - intros H. apply Qle_bool_iff. by rewrite <- Hflag.
  - intros H. rewrite Hflag. by apply Qle_bool_iff.
Qed.

Lemma filter_length_sum {A} (f : A → bool) (l : list A) :
  length (List.filter f l) = sum_list (map (λ x, if f x then 1%nat else 0%nat) l).
Proof. induction l as [|x l IH]; simpl; [done|]. destruct (f x); simpl; lia. Qed.

(** The vocabulary lists "health" twice: 23 entries, 22 distinct ones. *)
Lemma vocabulary_sizes :
  length public_health_keywords = 23%nat ∧ spec_vocabulary_size = 22%nat.
Proof. split; vm_compute; reflexivity. Qed.

(** On the posting titled "public health" the program stores 3/23 rounded,
    0.13, where the specification's quotient 3/22 rounds to 0.14: the
    stored score is not the specified one for every record. *)
Lemma relevance_score_distinct_denominator_fails :
  relevance_score (visit_job Samples.job_public_health).1 = Some 0.13%Q
  ∧ (spec_relevance_score Samples.job_public_health == 0.14)%Q
  ∧ ¬ (∀ job, ∃ score,
         relevance_score (visit_job job).1 = Some score
         ∧ (score == spec_relevance_score job)%Q).
Proof.
  split; [reflexivity|]. split; [reflexivity|].
  intros H. destruct (H Samples.job_public_health) as (score & Hs & Heq).
  vm_compute in Hs. injection Hs as <-.
  vm_compute in Heq. discriminate.
Qed.

(** C2, amended. The stored score is the match count divided by the length
    of the vocabulary list, 23 with the repeated entry counted twice,
    rounded to the nearest hundredth; the match count adds one for every
    listed entry, repeated or not, that occurs up to letter case in the
    title, a space and the organization. *)
Theorem relevance_score_formula (job : Job) :
  let text := title job +:+ " " +:+ organization job in
  let match_count := matches (PyStr.lower text) in
  let quotient := (inject_Z (Z.of_nat match_count) / inject_Z 23)%Q in
  relevance_score (visit_job job).1 = Some (py_round2 quotient)
  ∧ length public_health_keywords = 23%nat
  ∧ match_count
    = sum_list (map (λ keyword, if PyStr.contains (PyStr.lower text) keyword
                                then 1%nat else 0%nat)
                    public_health_keywords)
  ∧ (∀ keyword, keyword ∈ public_health_keywords →
       PyStr.contains (PyStr.lower text) keyword = true
       ↔ PyStr.occurs_in_ci keyword text)
  ∧ (∃ hundredths : Z,
       py_round2 quotient = (inject_Z hundredths / 100)%Q
       ∧ (inject_Z hundredths - (1 # 2) <= quotient * 100)%Q
       ∧ (quotient * 100 <= inject_Z hundredths + (1 # 2))%Q).
Proof.
  intros text match_count quotient.
  split; [by rewrite visit_job_unfold|].
  split; [reflexivity|].
  split; [apply filter_length_sum|].
  split; [intros keyword Hin; by apply (keyword_test_ci job)|].
  exists (round_half_even (quotient * 100)).
  split; [reflexivity|]. apply round_half_even_nearest.
Qed.

(** ** The relevance filter *)

Lemma visit_job_fields job :
  let job' := (visit_job job).1 in
  title job' = title job ∧ organization job' = organization job
  ∧ location job' = location job ∧ url job' = url job
  ∧ date_posted job' = date_posted job ∧ source job' = source job
  ∧ scraped_at job' = scraped_at job ∧ search_term job' = search_term job
  ∧ is_recent job' = is_recent job.
Proof. rewrite visit_job_unfold. simpl. repeat split. Qed.

Lemma visit_job_flag job :
  is_public_health (visit_job job).1 = Some (visit_job job).2.
Proof. by rewrite visit_job_unfold. Qed.

(** Visiting a dict a second time stores the same two values again. *)
Lemma visit_job_idem job : visit_job (visit_job job).1 = visit_job job.
Proof.
  assert (job_text (visit_job job).1 = job_text job) as Htext.
  { unfold job_text. destruct (visit_job_fields job) as (-> & -> & _). done. }
  rewrite (visit_job_unfold (visit_job job).1), Htext.
  rewrite (visit_job_unfold job). by destruct job.
Qed.

Lemma filter_loop_acc jobs acc :
  filter_loop jobs acc
  = acc ++ map fst (List.filter snd (map visit_job jobs)).
Proof.
  revert acc. induction jobs as [|job rest IH]; intros acc; simpl.
  - by rewrite app_nil_r.
  - destruct (visit_job job) as [job' keep] eqn:Hv. rewrite IH.
    destruct keep; simpl; [|done]. by rewrite <- app_assoc.
Qed.

(** The returned list: the visited records that reach the threshold, in
    input order. *)
Lemma filter_public_health_jobs_eq jobs :
  filter_public_health_jobs jobs
  = map fst (List.filter snd (map visit_job jobs)).
Proof. unfold filter_public_health_jobs. by rewrite filter_loop_acc. Qed.

Lemma filter_public_health_jobs_app jobs1 jobs2 :
  filter_public_health_jobs (jobs1 ++ jobs2)
  = filter_public_health_jobs jobs1 ++ filter_public_health_jobs jobs2.
Proof.
  rewrite !filter_public_health_jobs_eq.
  by rewrite map_app, List.filter_app, map_app.
Qed.

Lemma filter_public_health_jobs_In job' jobs :
  In job' (filter_public_health_jobs jobs)
  ↔ ∃ job, In job jobs ∧ visit_job job = (job', true).
Proof.
  rewrite filter_public_health_jobs_eq, in_map_iff. split.
  - intros ([j k] & <- & Hin). apply filter_In in Hin as [Hin Hk].
    simpl in Hk. subst k. apply in_map_iff in Hin as (job & Hv & Hin).
    by exists job.
  - intros (job & Hin & Hv). exists (job', true). split; [done|].
    apply filter_In. split; [|done]. apply in_map_iff. by exists job.
Qed.

(** ** The relevance filter, in place *)

Lemma keeps_insert store job d l :
  store !! job = Some d →
  keeps (<[job := (visit_job d).1]> store) l = keeps store l.
Proof.
  intros Hd. unfold keeps. destruct (decide (job = l)) as [->|Hne].
  - by rewrite lookup_insert_eq, Hd, visit_job_idem.
  - by rewrite lookup_insert_ne.
Qed.

Lemma filter_in_place_loop_spec jobs :
  ∀ (store : gmap positive Job) (acc : list positive),
    Forall (λ l, is_Some (store !! l)) jobs →
    ∃ store',
      filter_in_place_loop jobs store acc
      = Some (acc ++ List.filter (keeps store) jobs, store')
      ∧ ∀ l, store' !! l
             = if bool_decide (l ∈ jobs)
               then (λ d, (visit_job d).1) <$> store !! l
               else store !! l.
Proof.
  induction jobs as [|job rest IH]; intros store acc Hall; simpl.
  - exists store. by rewrite app_nil_r.
  - apply Forall_cons in Hall as [[d Hd] Hrest]. rewrite Hd.
    destruct (visit_job d) as [d' keep] eqn:Hv.
    assert (d' = (visit_job d).1) as -> by by rewrite Hv.
    destruct (IH (<[job := (visit_job d).1]> store)
                 (if keep then acc ++ [job] else acc)) as (store' & -> & Hlook).
    { eapply Forall_impl; [exact Hrest|]. intros l Hl. simpl.
      by apply lookup_insert_is_Some'; right. }
    exists store'. split.
    + f_equal. f_equal.
      rewrite (List.filter_ext _ _ (λ l, keeps_insert store job d l Hd)).
      unfold keeps at 2. rewrite Hd, Hv. simpl.
      destruct keep; [by rewrite <- app_assoc | done].
    + intros l. rewrite Hlook. destruct (decide (l = job)) as [->|Hne].
      * rewrite lookup_insert_eq, Hd.
        rewrite (bool_decide_eq_true_2 (job ∈ job :: rest)) by apply list_elem_of_here.
        simpl. rewrite visit_job_idem. by case_bool_decide.
      * rewrite lookup_insert_ne by done.
        by rewrite (bool_decide_ext (l ∈ job :: rest) (l ∈ rest))
          by (rewrite elem_of_cons; tauto).
Qed.

(** C10. [filter_public_health_jobs] updates in place every dict its input
    list refers to, failing ones included: afterwards the dict is the old
    one with [relevance_score] and [is_public_health] assigned and the
    nine other keys as before, dicts outside the list are untouched, and
    the returned list refers to exactly the listed dicts whose flag is
    true. *)
Theorem filter_public_health_jobs_in_place_frame
    (jobs : list positive) (store : gmap positive Job) :
  Forall (λ l, is_Some (store !! l)) jobs →
  ∃ filtered_jobs store',
    filter_public_health_jobs_in_place jobs store = Some (filtered_jobs, store')
    ∧ (∀ l d, l ∈ jobs → store !! l = Some d →
         ∃ d' score flag,
           store' !! l = Some d'
           ∧ d' = set_is_public_health flag (set_relevance_score score d)
           ∧ relevance_score d' = Some score ∧ is_public_health d' = Some flag
           ∧ title d' = title d ∧ organization d' = organization d
           ∧ location d' = location d ∧ url d' = url d
           ∧ date_posted d' = date_posted d ∧ source d' = source d
           ∧ scraped_at d' = scraped_at d ∧ search_term d' = search_term d
           ∧ is_recent d' = is_recent d
           ∧ (l ∈ filtered_jobs ↔ flag = true))
    ∧ (∀ l, l ∉ jobs → store' !! l = store !! l)
    ∧ (∀ l, l ∈ filtered_jobs → l ∈ jobs).
Proof.
  intros Hall. unfold filter_public_health_jobs_in_place.
  destruct (filter_in_place_loop_spec jobs store [] Hall) as (store' & -> & Hlook).
  simpl. eexists _, store'. split; [reflexivity|]. split; [|split].
  - intros l d Hin Hd.
    pose proof (visit_job_unfold d) as Hv. simpl in Hv.
    eexists (visit_job d).1, _, _. split.
    { rewrite Hlook, bool_decide_eq_true_2, Hd by done. reflexivity. }
    rewrite Hv. simpl. repeat (split; [reflexivity|]).
    rewrite list_elem_of_In, filter_In, <- list_elem_of_In.
    unfold keeps. rewrite Hd, Hv. simpl. tauto.
  - intros l Hnin. by rewrite Hlook, bool_decide_eq_false_2.
  - intros l. rewrite !list_elem_of_In, filter_In. tauto.
Qed.

Lemma filter_public_health_jobs_in_place_frame_witness :
  Forall (λ l, is_Some (Samples.store_two !! l)) [1%positive; 2%positive]
  ∧ ∃ filtered_jobs store',
      filter_public_health_jobs_in_place [1%positive; 2%positive] Samples.store_two
      = Some (filtered_jobs, store').
Proof.
  assert (Forall (λ l, is_Some (Samples.store_two !! l)) [1%positive; 2%positive])
    as Hall.
  { repeat constructor; vm_compute; eexists; reflexivity. }
  split; [exact Hall|].
  destruct (filter_public_health_jobs_in_place_frame _ _ Hall)
    as (filtered_jobs & store' & Hrun & _).
  by exists filtered_jobs, store'.
Defined.

Example filter_in_place_two :
  ∃ store',
    filter_public_health_jobs_in_place [1%positive; 2%positive] Samples.store_two
    = Some ([1%positive], store')
    ∧ (is_public_health <$> store' !! 2%positive) = Some (Some false)
    ∧ (relevance_score <$> store' !! 2%positive) = Some (Some 0.00%Q).
Proof. eexists. split; [vm_compute; reflexivity|]. split; vm_compute; reflexivity. Qed.

(** The list-of-dicts reading used by [main] below agrees with the
    in-place run: the references returned point, in the updated store, to
    the records [filter_public_health_jobs] returns. *)
Lemma filter_in_place_refines (jobs : list positive) (store : gmap positive Job)
    (ds : list Job) :
  Forall2 (λ l d, store !! l = Some d) jobs ds →
  ∃ filtered_jobs store',
    filter_public_health_jobs_in_place jobs store = Some (filtered_jobs, store')
    ∧ Forall2 (λ l d', store' !! l = Some d') filtered_jobs
              (filter_public_health_jobs ds).
Proof.
  intros Hds.
  assert (Forall (λ l, is_Some (store !! l)) jobs) as Hall.
  { clear -Hds. induction Hds; constructor; eauto. }
  unfold filter_public_health_jobs_in_place.
  destruct (filter_in_place_loop_spec jobs store [] Hall) as (store' & -> & Hlook).
  simpl. eexists _, store'. split; [reflexivity|].
  rewrite filter_public_health_jobs_eq.
  assert (∀ l, l ∈ jobs → store' !! l = (λ d, (visit_job d).1) <$> store !! l) as Hin.
  { intros l Hl. by rewrite Hlook, bool_decide_eq_true_2. }
  clear Hlook Hall. induction Hds as [|l d jobs ds Hd Hds IH]; simpl.
  - constructor.
  - unfold keeps at 1. rewrite Hd.
    destruct (visit_job d) as [d' keep] eqn:Hv. simpl.
    assert (Forall2 (λ l d', store' !! l = Some d')
              (List.filter (keeps store) jobs)
              (map fst (List.filter snd (map visit_job ds)))) as Hrest.
    { apply IH. intros l' Hl'. apply Hin. by apply list_elem_of_further. }
    destruct keep; [|exact Hrest].
    constructor; [|exact Hrest].
    rewrite Hin by apply list_elem_of_here. rewrite Hd. simpl. by rewrite Hv.
Qed.

(** ** Duplicate removal *)

Lemma remove_duplicates_loop_acc all_jobs :
  ∀ seen acc,
    remove_duplicates_loop all_jobs seen acc
    = acc ++ remove_duplicates_loop all_jobs seen [].
Proof.
  induction all_jobs as [|job rest IH]; intros seen acc; simpl.
  - by rewrite app_nil_r.
  - destruct (decide (url job ∈ seen)); [apply IH|].
    rewrite (IH _ (acc ++ [job])), (IH _ [job]). by rewrite <- app_assoc.
Qed.

(** What survives was in the input, under a URL not seen before, and the
    survivors keep their order and carry pairwise distinct URLs. *)
Lemma remove_duplicates_loop_sound all_jobs :
  ∀ seen,
    let unique_jobs := remove_duplicates_loop all_jobs seen [] in
    sublist unique_jobs all_jobs
    ∧ Forall (λ job, url job ∉ seen) unique_jobs
    ∧ NoDup (url <$> unique_jobs).
Proof.
  induction all_jobs as [|job rest IH]; intros seen; simpl.
  - repeat split; constructor.
  - destruct (decide (url job ∈ seen)) as [Hseen|Hfresh].
    + destruct (IH seen) as (Hsub & Hout & Hnd).
      repeat split; [by apply sublist_cons | done | done].
    + rewrite remove_duplicates_loop_acc. simpl.
      destruct (IH ({[url job]} ∪ seen)) as (Hsub & Hout & Hnd).
      repeat split.
      * by apply sublist_skip.
      * constructor; [done|]. eapply Forall_impl; [exact Hout|].
        intros j Hj Hin. apply Hj, elem_of_union. by right.
      * apply NoDup_cons_2; [|done].
        intros (j & Hu & Hj)%list_elem_of_fmap.
        rewrite Forall_forall in Hout. apply (Hout j Hj).
        apply elem_of_union. left. by apply elem_of_singleton.
Qed.

(** Under each URL the survivors hold the first input record with that
    URL, and nothing else. *)
Lemma remove_duplicates_loop_first all_jobs u :
  ∀ seen,
    List.filter (has_url u) (remove_duplicates_loop all_jobs seen [])
    = if decide (u ∈ seen) then [] else option_list (List.find (has_url u) all_jobs).
Proof.
  induction all_jobs as [|job rest IH]; intros seen; simpl.
  - by destruct (decide (u ∈ seen)).
  - assert (has_url u job = bool_decide (url job = u)) as Hhas by done.
    destruct (decide (url job ∈ seen)) as [Hseen|Hfresh].
    + rewrite IH. destruct (decide (u ∈ seen)) as [|Hu]; [done|].
      rewrite Hhas, bool_decide_eq_false_2; [done|].
      intros Heq. by rewrite Heq in Hseen.
    + rewrite remove_duplicates_loop_acc. simpl. rewrite IH, Hhas.
      destruct (decide (url job = u)) as [Heq|Hne].
      * rewrite bool_decide_eq_true_2 by done. rewrite <- Heq.
        rewrite decide_True by (apply elem_of_union; left; by apply elem_of_singleton).
        by rewrite decide_False by done.
      * rewrite bool_decide_eq_false_2 by done.
        destruct (decide (u ∈ seen)) as [Hu|Hu].
        -- by rewrite decide_True by (apply elem_of_union; by right).
        -- rewrite decide_False; [done|].
           intros [H%elem_of_singleton|H]%elem_of_union; congruence.
Qed.

Lemma remove_duplicates_In job all_jobs :
  In job (remove_duplicates all_jobs) → In job all_jobs.
Proof.
  intros Hin. destruct (remove_duplicates_loop_sound all_jobs ∅) as (Hsub & _).
  apply list_elem_of_In. eapply elem_of_sublist; [|exact Hsub].
  by apply list_elem_of_In.
Qed.

Example remove_duplicates_two_terms :
  remove_duplicates
    [ mkJob "A" "" "" "https://example.org/job/1" "" "reliefweb" 0 "public health" false None None;
      mkJob "B" "" "" "https://example.org/job/2" "" "reliefweb" 0 "public health" false None None;
      mkJob "A" "" "" "https://example.org/job/1" "" "devex" 3 "health data" true None None ]
  = [ mkJob "A" "" "" "https://example.org/job/1" "" "reliefweb" 0 "public health" false None None;
      mkJob "B" "" "" "https://example.org/job/2" "" "reliefweb" 0 "public health" false None None ].
Proof. vm_compute. reflexivity. Qed.

(** C3. The duplicate removal that [main] runs once every search term has
    been processed keeps, for each URL of the accumulated list, exactly
    one record: the first accumulated record with that URL, whole, with
    its own provenance. Later records with the URL are gone, no URL
    occurs twice, nothing is invented, and the survivors keep the
    accumulation order. *)
Theorem remove_duplicates_keeps_first (all_jobs : list Job) :
  (∀ u, List.filter (has_url u) (remove_duplicates all_jobs)
        = option_list (List.find (has_url u) all_jobs))
  ∧ NoDup (url <$> remove_duplicates all_jobs)
  ∧ sublist (remove_duplicates all_jobs) all_jobs
  ∧ (∀ u, u ∈ (url <$> all_jobs) → u ∈ (url <$> remove_duplicates all_jobs)).
Proof.
  destruct (remove_duplicates_loop_sound all_jobs ∅) as (Hsub & _ & Hnd).
  assert (∀ u, List.filter (has_url u) (remove_duplicates all_jobs)
               = option_list (List.find (has_url u) all_jobs)) as Hfirst.
  { intros u. unfold remove_duplicates.
    rewrite remove_duplicates_loop_first. by rewrite decide_False by set_solver. }
  repeat split; try done.
  intros u (job & -> & Hjob)%list_elem_of_fmap.
  destruct (List.find (has_url (url job)) all_jobs) as [first|] eqn:Hfind.
  - assert (In first (List.filter (has_url (url job)) (remove_duplicates all_jobs)))
      as Hin by (rewrite Hfirst, Hfind; by left).
    apply filter_In in Hin as [Hin Hu]. apply bool_decide_eq_true_1 in Hu.
    apply list_elem_of_fmap. exists first. by rewrite list_elem_of_In.
  - apply list_elem_of_In in Hjob.
    pose proof (find_none _ _ Hfind job Hjob) as Hno.
    unfold has_url in Hno. by rewrite bool_decide_eq_true_2 in Hno.
Qed.

(** ** Running computations *)

Section Run.
Context {A B : Type}.
Implicit Types (m : M A) (f : A → M B) (t : Z).

Lemma result_bind m f t :
  result ((m ≫= f) t) = result (f (result (m t)) (clock_after (m t))).
Proof.
  unfold mbind, M_bind, result, clock_after.
  destruct (m t) as [[x t1] l1]. simpl. by destruct (f x t1) as [[y t2] l2].
Qed.

Lemma clock_after_bind m f t :
  clock_after ((m ≫= f) t) = clock_after (f (result (m t)) (clock_after (m t))).
Proof.
  unfold mbind, M_bind, result, clock_after.
  destruct (m t) as [[x t1] l1]. simpl. by destruct (f x t1) as [[y t2] l2].
Qed.

Lemma events_bind m f t :
  events ((m ≫= f) t)
  = events (m t) ++ events (f (result (m t)) (clock_after (m t))).
Proof.
  unfold mbind, M_bind, result, clock_after, events.
  destruct (m t) as [[x t1] l1]. simpl. by destruct (f x t1) as [[y t2] l2].
Qed.

End Run.

Lemma result_ret {A} (x : A) t : result ((mret x : M A) t) = x.
Proof. reflexivity. Qed.

Lemma clock_after_ret {A} (x : A) t : clock_after ((mret x : M A) t) = t.
Proof. reflexivity. Qed.

Lemma events_ret {A} (x : A) t : events ((mret x : M A) t) = [].
Proof. reflexivity. Qed.

Lemma run_emit e t :
  result (emit e t) = tt ∧ clock_after (emit e t) = t ∧ events (emit e t) = [e].
Proof. done. Qed.

Lemma run_now t :
  result (now t) = t ∧ clock_after (now t) = t ∧ events (now t) = [].
Proof. done. Qed.

Lemma run_sleep n t :
  result (sleep n t) = tt ∧ clock_after (sleep n t) = (t + n)%Z
  ∧ events (sleep n t) = [Sleep n].
Proof. done. Qed.

Lemma clock_after_emit e t : clock_after (emit e t) = t.
Proof. done. Qed.

Lemma events_emit e t : events (emit e t) = [e].
Proof. done. Qed.

Lemma result_now t : result (now t) = t.
Proof. done. Qed.

Lemma clock_after_now t : clock_after (now t) = t.
Proof. done. Qed.

Lemma events_now t : events (now t) = [].
Proof. done. Qed.

Lemma clock_after_sleep n t : clock_after (sleep n t) = (t + n)%Z.
Proof. done. Qed.

Lemma events_sleep n t : events (sleep n t) = [Sleep n].
Proof. done. Qed.

Create Rewrite HintDb run.
#[global] Hint Rewrite @result_bind @clock_after_bind @events_bind
  @result_ret @clock_after_ret @events_ret
  clock_after_emit events_emit result_now clock_after_now events_now
  clock_after_sleep events_sleep : run.

Ltac run := autorewrite with run; simpl.

(** A loop whose body logs nothing and leaves the clock alone does so too,
    and every record it returns came out of the body. *)
Lemma collect_spec {A B} (P : B → Prop) (body : A → M (option B)) entries :
  (∀ x t, clock_after (body x t) = t ∧ events (body x t) = []
          ∧ ∀ job, result (body x t) = Some job → P job) →
  ∀ t, clock_after (collect body entries t) = t
       ∧ events (collect body entries t) = []
       ∧ Forall P (result (collect body entries t)).
Proof.
  intros Hbody. induction entries as [|x rest IH]; intros t.
  - repeat split. constructor.
  - destruct (Hbody x t) as (Hc & He & Hr). destruct (IH t) as (Hc' & He' & Hr').
    cbn [collect].
    rewrite !clock_after_bind, !events_bind, !result_bind, Hc, He.
    rewrite clock_after_ret, events_ret, result_ret, Hc', He'.
    repeat split.
    destruct (result (body x t)) as [job|] eqn:Hres; [|done].
    constructor; [by apply Hr | done].
Qed.

(** ** The adapters *)

Lemma reliefweb_item_job_spec search_term item t :
  clock_after (reliefweb_item_job search_term item t) = t
  ∧ events (reliefweb_item_job search_term item t) = []
  ∧ ∀ job, result (reliefweb_item_job search_term item t) = Some job → api_url job.
Proof.
  unfold reliefweb_item_job. destruct (item_id item) as [id|].
  - run. repeat split. intros job [= <-]. by exists id.
  - run. repeat split. intros job [=].
Qed.

Lemma reliefweb_api_try_spec W search_term max_jobs t :
  let r := reliefweb_api_try W search_term max_jobs t in
  clock_after r = t
  ∧ events r = [GetApi search_term max_jobs]
  ∧ match result r with
    | Some jobs => Forall api_url jobs ∧ is_Some (reliefweb_api W search_term max_jobs)
    | None => reliefweb_api W search_term max_jobs = None
    end.
Proof.
  unfold reliefweb_api_try. cbv zeta. run.
  destruct (reliefweb_api W search_term max_jobs) as [data|]; [|by run].
  destruct (collect_spec api_url (reliefweb_item_job search_term) (take max_jobs data)
              (reliefweb_item_job_spec search_term) t) as (Hc & He & Hr).
  run. rewrite Hc, He. eauto.
Qed.

Lemma app_scrape_reliefweb_api_spec W search_term max_jobs t :
  let r := App.scrape_reliefweb_api W search_term max_jobs t in
  clock_after r = t
  ∧ events r = [Call ReliefwebApi search_term max_jobs; GetApi search_term max_jobs]
  ∧ Forall api_url (result r)
  ∧ (reliefweb_api W search_term max_jobs = None → result r = []).
Proof.
  unfold App.scrape_reliefweb_api. cbv zeta.
  destruct (reliefweb_api_try_spec W search_term max_jobs t) as (Hc & He & Hr).
  run. rewrite Hc, He.
  destruct (result (reliefweb_api_try W search_term max_jobs t)) as [jobs|].
  - destruct Hr as [Hr [data Hdata]]. repeat split; [done|]. by rewrite Hdata.
  - repeat split. constructor.
Qed.

Lemma reliefweb_article_job_spec search_term job_element t :
  clock_after (App.reliefweb_article_job search_term job_element t) = t
  ∧ events (App.reliefweb_article_job search_term job_element t) = []
  ∧ ∀ job, result (App.reliefweb_article_job search_term job_element t) = Some job →
           html_url job.
Proof.
  unfold App.reliefweb_article_job.
  destruct (art_h3 job_element) as [[title_elem|]|]; run; repeat split;
    try (intros job Hjob; discriminate Hjob).
  intros job [= <-]. unfold html_url. simpl.
  destruct (a_href title_elem) as [[|c href]|]; simpl; [by left| |by left].
  right. by exists (String c href).
Qed.

Lemma app_scrape_reliefweb_html_spec W search_term max_jobs t :
  let r := App.scrape_reliefweb_html W search_term max_jobs t in
  let address := "https://reliefweb.int/jobs?search="
                 +:+ PyStr.replace_space "+" search_term in
  clock_after r = t
  ∧ events r = Call ReliefwebHtml search_term max_jobs
               :: (if BEAUTIFUL_SOUP_AVAILABLE W then [GetPage address] else [])
  ∧ Forall html_url (result r)
  ∧ (BEAUTIFUL_SOUP_AVAILABLE W = false ∨ reliefweb_page W address = None →
     result r = []).
Proof.
  unfold App.scrape_reliefweb_html. cbv zeta. run.
  destruct (BEAUTIFUL_SOUP_AVAILABLE W); simpl; run; [|by repeat split].
  destruct (reliefweb_page W _) as [found|] eqn:Hpage; run; [|by repeat split].
  destruct (collect_spec html_url (App.reliefweb_article_job search_term)
              (take max_jobs found) (reliefweb_article_job_spec search_term) t)
    as (Hc & He & Hr).
  rewrite Hc, He. repeat split; try done.
  intros [?|?]; congruence.
Qed.

Lemma devex_link_shape (u : string) :
  let link := if PyStr.truthy u && negb (PyStr.startswith u "http")
              then "https://www.devex.com" +:+ u
              else u in
  link = "" ∨ PyStr.startswith link "http" = true.
Proof.
  cbv zeta. destruct (PyStr.truthy u) eqn:Htruthy.
  - destruct (PyStr.startswith u "http") eqn:Hhttp; cbn [andb negb]; right;
      [done|reflexivity].
  - cbn [andb]. left. by destruct u.
Qed.

Lemma devex_card_job_spec search_term job_element t :
  clock_after (App.devex_card_job search_term job_element t) = t
  ∧ events (App.devex_card_job search_term job_element t) = []
  ∧ ∀ job, result (App.devex_card_job search_term job_element t) = Some job →
           devex_url job.
Proof.
  unfold App.devex_card_job.
  destruct (match dv_h3 job_element with
            | Some h3 => Some h3
            | None => match dv_h2 job_element with
                      | Some h2 => Some h2
                      | None => a_text <$> dv_a job_element
                      end
            end) as [title|]; [|by run; repeat split; intros job Hjob].
  destruct (String.length title <? 5)%nat; autorewrite with run; repeat split;
    try (intros job Hjob; discriminate Hjob).
  intros job Hjob. assert (∀ x y : Job, Some x = Some y → y = x) as Hinj by congruence.
  apply Hinj in Hjob. subst job. unfold devex_url. cbn [url].
  apply devex_link_shape.
Qed.

Lemma app_scrape_devex_spec W search_term max_jobs t :
  let r := App.scrape_devex W search_term max_jobs t in
  let address := "https://www.devex.com/jobs/search?filter[keywords]="
                 +:+ PyStr.replace_space "%20" search_term in
  clock_after r = t
  ∧ events r = Call Devex search_term max_jobs
               :: (if BEAUTIFUL_SOUP_AVAILABLE W then [GetPage address] else [])
  ∧ Forall devex_url (result r)
  ∧ (BEAUTIFUL_SOUP_AVAILABLE W = false ∨ devex_page W address = None →
     result r = []).
Proof.
  unfold App.scrape_devex. cbv zeta. run.
  destruct (BEAUTIFUL_SOUP_AVAILABLE W); simpl; run; [|by repeat split].
  destruct (devex_page W _) as [found|] eqn:Hpage; run; [|by repeat split].
  destruct (collect_spec devex_url (App.devex_card_job search_term)
              (take max_jobs found) (devex_card_job_spec search_term) t)
    as (Hc & He & Hr).
  rewrite Hc, He. repeat split; try done.
  intros [?|?]; congruence.
Qed.

Lemma get_mock_jobs_spec search_term t :
  let r := App2.get_mock_jobs search_term t in
  clock_after r = t ∧ events r = []
  ∧ length (result r) = 3%nat
  ∧ Forall api_url (result r).
Proof.
  cbv zeta. unfold App2.get_mock_jobs. run. repeat split.
  repeat constructor; unfold api_url; cbn [url];
    [by exists "example1" | by exists "example2" | by exists "example3"].
Qed.

Lemma app2_scrape_reliefweb_api_spec W search_term max_jobs t :
  let r := App2.scrape_reliefweb_api W search_term max_jobs t in
  clock_after r = t
  ∧ events r = [Call ReliefwebApi search_term max_jobs; GetApi search_term max_jobs]
  ∧ Forall api_url (result r)
  ∧ (reliefweb_api W search_term max_jobs = None →
     result r = result (App2.get_mock_jobs search_term t)).
Proof.
  unfold App2.scrape_reliefweb_api. cbv zeta.
  destruct (reliefweb_api_try_spec W search_term max_jobs t) as (Hc & He & Hr).
  destruct (get_mock_jobs_spec search_term t) as (Hmc & Hme & _ & Hmr).
  run. rewrite Hc, He.
  destruct (result (reliefweb_api_try W search_term max_jobs t)) as [jobs|].
  - destruct Hr as [Hr [data Hdata]]. run. repeat split; [done|]. by rewrite Hdata.
  - rewrite Hmc, Hme. by repeat split.
Qed.

(** On a page whose first article has a title link without href, the HTML
    fallback keeps the entry with an empty [url]: not every record an
    adapter produces carries an absolute link. *)
Lemma html_entry_without_href_has_empty_url :
  (url <$> result (App.scrape_reliefweb_html Samples.world_html_only
                     "public health" App.html_max_jobs 0%Z))
  = [""; "https://reliefweb.int/job/77"]
  ∧ ¬ (∀ W search_term max_jobs t,
         Forall (λ job, is_absolute_url (url job) = true)
                (result (App.scrape_reliefweb_html W search_term max_jobs t))).
Proof.
  split; [vm_compute; reflexivity|].
  intros H.
  specialize (H Samples.world_html_only "public health" App.html_max_jobs 0%Z).
  vm_compute in H. apply Forall_cons in H as [H _]. discriminate H.
Qed.

(** C7, amended. A record of the structured-API adapter (in app2.py also
    a canned record) has the URL "https://reliefweb.int/job/" followed by
    the item's id. A record kept by the ReliefWeb HTML strategy has a URL
    that is empty, when the title link has no or an empty href, or
    "https://reliefweb.int" followed by that href. A record kept by the
    Devex strategy has a URL that is empty, when there is no link or no
    href, or begins with "http". *)
Theorem adapter_url_shapes (W : World) (search_term : string) (max_jobs : nat) (t : Z) :
  Forall (λ job, ∃ id, url job = "https://reliefweb.int/job/" +:+ id)
         (result (App.scrape_reliefweb_api W search_term max_jobs t))
  ∧ Forall (λ job, ∃ id, url job = "https://reliefweb.int/job/" +:+ id)
           (result (App2.scrape_reliefweb_api W search_term max_jobs t))
  ∧ Forall (λ job, url job = ""
                   ∨ ∃ href, href ≠ "" ∧ url job = "https://reliefweb.int" +:+ href)
           (result (App.scrape_reliefweb_html W search_term max_jobs t))
  ∧ Forall (λ job, url job = "" ∨ PyStr.startswith (url job) "http" = true)
           (result (App.scrape_devex W search_term max_jobs t)).
Proof.
  destruct (app_scrape_reliefweb_api_spec W search_term max_jobs t) as (_ & _ & H1 & _).
  destruct (app2_scrape_reliefweb_api_spec W search_term max_jobs t) as (_ & _ & H2 & _).
  destruct (app_scrape_reliefweb_html_spec W search_term max_jobs t) as (_ & _ & H3 & _).
  destruct (app_scrape_devex_spec W search_term max_jobs t) as (_ & _ & H4 & _).
  done.
Qed.

(** ** One site, then all sites *)

Lemma app_scrape_site_reliefweb W search_term t :
  let api := App.scrape_reliefweb_api W search_term App.api_max_jobs t in
  let html := App.scrape_reliefweb_html W search_term App.html_max_jobs t in
  let r := App.scrape_site W search_term "reliefweb" t in
  clock_after r = t
  ∧ result r = Some (match result api with [] => result html | jobs => jobs end)
  ∧ events r = events api ++ match result api with [] => events html | _ => [] end.
Proof.
  cbv zeta. unfold App.scrape_site. cbn [String.eqb Ascii.eqb Bool.eqb].
  destruct (app_scrape_reliefweb_api_spec W search_term App.api_max_jobs t)
    as (Hc & _).
  destruct (app_scrape_reliefweb_html_spec W search_term App.html_max_jobs t)
    as (Hc' & _).
  autorewrite with run. rewrite Hc.
  destruct (result (App.scrape_reliefweb_api W search_term App.api_max_jobs t));
    autorewrite with run; rewrite ?Hc', ?app_nil_r; done.
Qed.

Lemma app_scrape_site_other W search_term site t :
  site ≠ "reliefweb" →
  let r := App.scrape_site W search_term site t in
  clock_after r = t
  ∧ (events r = []
     ∨ events r = events (App.scrape_devex W search_term App.devex_max_jobs t)).
Proof.
  intros Hsite. cbv zeta. unfold App.scrape_site.
  destruct (String.eqb_spec site "reliefweb") as [|_]; [done|].
  destruct (String.eqb site "devex" && BEAUTIFUL_SOUP_AVAILABLE W).
  - destruct (app_scrape_devex_spec W search_term App.devex_max_jobs t) as (Hc & _).
    autorewrite with run. rewrite Hc, app_nil_r. auto.
  - autorewrite with run. auto.
Qed.

Lemma app_scrape_site_spec W search_term site t :
  clock_after (App.scrape_site W search_term site t) = t
  ∧ Forall default_cap (events (App.scrape_site W search_term site t)).
Proof.
  destruct (decide (site = "reliefweb")) as [->|Hsite].
  - destruct (app_scrape_site_reliefweb W search_term t) as (Hc & _ & He).
    split; [done|]. rewrite He.
    destruct (app_scrape_reliefweb_api_spec W search_term App.api_max_jobs t)
      as (_ & -> & _).
    destruct (app_scrape_reliefweb_html_spec W search_term App.html_max_jobs t)
      as (_ & -> & _).
    destruct (result _); destruct (BEAUTIFUL_SOUP_AVAILABLE W);
      repeat constructor.
  - destruct (app_scrape_site_other W search_term site t Hsite) as (Hc & [->| ->]).
    + split; [done | constructor].
    + split; [done|].
      destruct (app_scrape_devex_spec W search_term App.devex_max_jobs t)
        as (_ & -> & _).
      destruct (BEAUTIFUL_SOUP_AVAILABLE W); repeat constructor.
Qed.

(** One turn of the site loop, unrolled. *)
Lemma app_scrape_sites_loop_cons W search_term site rest all_jobs t :
  let r := App.scrape_site W search_term site t in
  let next :=
    match result r with
    | None => App.scrape_sites_loop W search_term rest all_jobs t
    | Some jobs => App.scrape_sites_loop W search_term rest (all_jobs ++ jobs) (t + 1)%Z
    end in
  result (App.scrape_sites_loop W search_term (site :: rest) all_jobs t) = result next
  ∧ clock_after (App.scrape_sites_loop W search_term (site :: rest) all_jobs t)
    = clock_after next
  ∧ events (App.scrape_sites_loop W search_term (site :: rest) all_jobs t)
    = events r ++ match result r with None => [] | Some _ => [Sleep 1] end
      ++ events next.
Proof.
  cbv zeta. cbn [App.scrape_sites_loop].
  destruct (app_scrape_site_spec W search_term site t) as (Hc & _).
  autorewrite with run. rewrite Hc.
  destruct (result (App.scrape_site W search_term site t));
    autorewrite with run; done.
Qed.

Lemma app_scrape_sites_loop_events W search_term sites :
  ∀ all_jobs t,
    Forall default_cap (events (App.scrape_sites_loop W search_term sites all_jobs t)).
Proof.
  induction sites as [|site rest IH]; intros all_jobs t.
  - constructor.
  - destruct (app_scrape_sites_loop_cons W search_term site rest all_jobs t)
      as (_ & _ & ->).
    destruct (app_scrape_site_spec W search_term site t) as (_ & He).
    apply Forall_app. split; [done|].
    destruct (result (App.scrape_site W search_term site t));
      [apply Forall_app; split; [repeat constructor|]|]; apply IH.
Qed.

Lemma app2_scrape_site_reliefweb W search_term t :
  let api := App2.scrape_reliefweb_api W search_term App2.api_max_jobs t in
  let r := App2.scrape_site W search_term "reliefweb" t in
  clock_after r = t ∧ result r = Some (result api) ∧ events r = events api.
Proof.
  cbv zeta. unfold App2.scrape_site. cbn [String.eqb Ascii.eqb Bool.eqb].
  destruct (app2_scrape_reliefweb_api_spec W search_term App2.api_max_jobs t)
    as (Hc & _).
  autorewrite with run. by rewrite Hc, app_nil_r.
Qed.

Lemma html_attempts_app search_term log1 log2 :
  html_attempts search_term (log1 ++ log2)
  = (html_attempts search_term log1 + html_attempts search_term log2)%nat.
Proof. unfold html_attempts. by rewrite List.filter_app, length_app. Qed.

(** In app2.py a failing API request yields three canned records and the
    HTML fallback is never entered: a total failure does not always give
    zero records after one fallback attempt. *)
Lemma api_failure_fabricates_records_in_app2 :
  reliefweb_api Samples.world_offline "public health" App2.api_max_jobs = None
  ∧ (length <$> result (App2.scrape_site Samples.world_offline
                          "public health" "reliefweb" 0%Z)) = Some 3%nat
  ∧ html_attempts "public health"
      (events (App2.scrape_site Samples.world_offline
                 "public health" "reliefweb" 0%Z)) = 0%nat.
Proof. repeat split. Qed.

(** C6, amended. In app.py, when the API adapter returns no record (the
    request failed or gave nothing usable), the HTML fallback is entered
    exactly once, and not at all otherwise; when the fallback also fails
    the pair yields zero records, and the loop goes on to the remaining
    sites either way. In app2.py there is no fallback: a failed API
    request yields the three canned demonstration records, an empty
    answer yields zero records. No run raises. *)
Theorem api_empty_falls_back_once (W : World) (search_term : string) (t : Z) :
  (let api := result (App.scrape_reliefweb_api W search_term App.api_max_jobs t) in
   let html := result (App.scrape_reliefweb_html W search_term App.html_max_jobs t) in
   let r := App.scrape_site W search_term "reliefweb" t in
   let address := "https://reliefweb.int/jobs?search="
                  +:+ PyStr.replace_space "+" search_term in
   (api = [] → html_attempts search_term (events r) = 1%nat ∧ result r = Some html)
   ∧ (api ≠ [] → html_attempts search_term (events r) = 0%nat ∧ result r = Some api)
   ∧ (reliefweb_api W search_term App.api_max_jobs = None →
      BEAUTIFUL_SOUP_AVAILABLE W = false ∨ reliefweb_page W address = None →
      result r = Some [])
   ∧ ∃ jobs, result r = Some jobs
       ∧ ∀ sites all_jobs,
           result (App.scrape_sites_loop W search_term ("reliefweb" :: sites) all_jobs t)
           = result (App.scrape_sites_loop W search_term sites (all_jobs ++ jobs) (t + 1)%Z))
  ∧ (let r2 := App2.scrape_site W search_term "reliefweb" t in
     html_attempts search_term (events r2) = 0%nat
     ∧ (reliefweb_api W search_term App2.api_max_jobs = None →
        result r2 = Some (result (App2.get_mock_jobs search_term t))
        ∧ (length <$> result r2) = Some 3%nat)
     ∧ (reliefweb_api W search_term App2.api_max_jobs = Some [] →
        result r2 = Some [])).
Proof.
  cbv zeta. split.
  - destruct (app_scrape_site_reliefweb W search_term t) as (Hc & Hr & He).
    destruct (app_scrape_reliefweb_api_spec W search_term App.api_max_jobs t)
      as (_ & Hea & _ & Hfail).
    destruct (app_scrape_reliefweb_html_spec W search_term App.html_max_jobs t)
      as (_ & Heh & _ & Hfailh).
    rewrite He, Hr, Hea, Heh, html_attempts_app.
    assert (html_attempts search_term
              (Call ReliefwebHtml search_term App.html_max_jobs
               :: (if BEAUTIFUL_SOUP_AVAILABLE W
                   then [GetPage ("https://reliefweb.int/jobs?search="
                                  +:+ PyStr.replace_space "+" search_term)]
                   else [])) = 1%nat) as Hone.
    { unfold html_attempts. cbn [List.filter].
      rewrite bool_decide_eq_true_2 by done.
      by destruct (BEAUTIFUL_SOUP_AVAILABLE W). }
    split; [|split; [|split]].
    + intros ->. by rewrite Hone.
    + intros Hne.
      by destruct (result (App.scrape_reliefweb_api W search_term App.api_max_jobs t)).
    + intros Hapi Hpage. by rewrite (Hfail Hapi), (Hfailh Hpage).
    + eexists. split; [reflexivity|]. intros sites all_jobs.
      destruct (app_scrape_sites_loop_cons W search_term "reliefweb" sites all_jobs t)
        as (-> & _). by rewrite Hr.
  - destruct (app2_scrape_site_reliefweb W search_term t) as (Hc & Hr & He).
    destruct (app2_scrape_reliefweb_api_spec W search_term App2.api_max_jobs t)
      as (_ & Hea & _ & Hfail).
    destruct (get_mock_jobs_spec search_term t) as (_ & _ & Hlen & _).
    rewrite He, Hr, Hea. split; [done|split].
    + intros Hapi. rewrite (Hfail Hapi). split; [done|].
      change (Some (length (result (App2.get_mock_jobs search_term t))) = Some 3%nat).
      by rewrite Hlen.
    + intros Hempty. f_equal. unfold App2.scrape_reliefweb_api, reliefweb_api_try.
      rewrite Hempty. reflexivity.
Qed.

(** ** The search loop and [main] *)

Lemma filter_public_health_jobs_passed jobs :
  Forall passed (filter_public_health_jobs jobs).
Proof.
  apply Forall_forall. intros job' Hin%list_elem_of_In.
  apply filter_public_health_jobs_In in Hin as (job & _ & Hv).
  rewrite visit_job_unfold in Hv. cbv zeta in Hv.
  destruct (score_table_at job) as (_ & _ & Hflag).
  injection Hv as <- Hkeep. split; [by rewrite Hkeep|].
  eexists. split; [reflexivity|].
  apply Qle_bool_iff. by rewrite <- Hflag.
Qed.

Lemma app_scrape_development_sites_spec W search_term sites t :
  Forall default_cap (events (App.scrape_development_sites W search_term sites t)).
Proof. apply app_scrape_sites_loop_events. Qed.

Lemma app_search_loop_step W search_term rest sites all_jobs t :
  let scraped := App.scrape_development_sites W search_term (Some sites) t in
  let next := App.search_loop W rest sites
                (all_jobs ++ filter_public_health_jobs (result scraped))
                (clock_after scraped + 1)%Z in
  result (App.search_loop W (search_term :: rest) sites all_jobs t) = result next
  ∧ events (App.search_loop W (search_term :: rest) sites all_jobs t)
    = events scraped ++ [Sleep 1] ++ events next.
Proof. cbv zeta. cbn [App.search_loop]. autorewrite with run. done. Qed.

Lemma app_search_loop_spec W search_terms sites :
  ∀ all_jobs t,
    Forall default_cap (events (App.search_loop W search_terms sites all_jobs t))
    ∧ (Forall passed all_jobs →
       Forall passed (result (App.search_loop W search_terms sites all_jobs t))).
Proof.
  induction search_terms as [|search_term rest IH]; intros all_jobs t.
  - split; [constructor | done].
  - destruct (app_search_loop_step W search_term rest sites all_jobs t) as (-> & ->).
    edestruct IH as (He & Hr). split.
    + apply Forall_app. split; [apply app_scrape_development_sites_spec|].
      apply Forall_app. split; [repeat constructor | exact He].
    + intros Hacc. apply Hr, Forall_app. split; [done|].
      apply filter_public_health_jobs_passed.
Qed.

Lemma app_main_cases W ui t :
  let search_terms := App.sidebar_search_terms ui in
  let sites := App.sidebar_sites W ui in
  App.main W ui t
  = if App.run_scraper ui then
      if bool_decide (search_terms = []) then
        (ConfigError "Please select at least one search term.", t, [])
      else if bool_decide (sites = []) then
        (ConfigError "Please select at least one website to scrape.", t, [])
      else
        let run := App.search_loop W search_terms sites [] t in
        (Displayed (remove_duplicates (result run)), clock_after run, events run)
    else (Idle, t, []).
Proof.
  cbv zeta. unfold App.main.
  destruct (App.run_scraper ui); [|done].
  destruct (bool_decide (App.sidebar_search_terms ui = [])); [done|].
  destruct (bool_decide (App.sidebar_sites W ui = [])); [done|].
  unfold mbind, M_bind, result, clock_after, events.
  destruct (App.search_loop W _ _ [] t) as [[all_jobs t'] log]. simpl.
  by rewrite app_nil_r.
Qed.

Lemma app2_scrape_site_spec W search_term site t :
  clock_after (App2.scrape_site W search_term site t) = t
  ∧ Forall default_cap (events (App2.scrape_site W search_term site t)).
Proof.
  destruct (decide (site = "reliefweb")) as [->|Hsite].
  - destruct (app2_scrape_site_reliefweb W search_term t) as (Hc & _ & He).
    split; [done|]. rewrite He.
    destruct (app2_scrape_reliefweb_api_spec W search_term App2.api_max_jobs t)
      as (_ & -> & _).
    repeat constructor.
  - unfold App2.scrape_site.
    destruct (String.eqb_spec site "reliefweb") as [|_]; [done|].
    split; [done | constructor].
Qed.

Lemma app2_scrape_sites_loop_events W search_term sites :
  ∀ all_jobs t,
    Forall default_cap (events (App2.scrape_sites_loop W search_term sites all_jobs t)).
Proof.
  induction sites as [|site rest IH]; intros all_jobs t.
  - constructor.
  - cbn [App2.scrape_sites_loop].
    destruct (app2_scrape_site_spec W search_term site t) as (Hc & He).
    autorewrite with run. rewrite Hc. apply Forall_app. split; [done|].
    destruct (result (App2.scrape_site W search_term site t));
      autorewrite with run; [apply Forall_cons; split; [done|]|]; apply IH.
Qed.

Lemma app2_search_loop_spec W search_terms sites :
  ∀ all_jobs t,
    Forall default_cap (events (App2.search_loop W search_terms sites all_jobs t))
    ∧ (Forall passed all_jobs →
       Forall passed (result (App2.search_loop W search_terms sites all_jobs t))).
Proof.
  induction search_terms as [|search_term rest IH]; intros all_jobs t.
  - split; [constructor | done].
  - cbn [App2.search_loop]. autorewrite with run.
    edestruct IH as (He & Hr). split.
    + apply Forall_app. split; [apply app2_scrape_sites_loop_events|].
      apply Forall_cons. split; [done | exact He].
    + intros Hacc. apply Hr, Forall_app. split; [done|].
      apply filter_public_health_jobs_passed.
Qed.

Lemma app2_main_cases W ui t :
  let search_terms := App2.sidebar_search_terms ui in
  let sites := App2.sidebar_sites ui in
  App2.main W ui t
  = if App2.run_scraper ui then
      if bool_decide (search_terms = []) then
        (ConfigError "Please select at least one search term.", t, [])
      else if bool_decide (sites = []) then
        (ConfigError "Please select at least one website to scrape.", t, [])
      else
        let run := App2.search_loop W search_terms sites [] t in
        (Displayed (remove_duplicates (result run)), clock_after run, events run)
    else (Idle, t, []).
Proof.
  cbv zeta. unfold App2.main.
  destruct (App2.run_scraper ui); [|done].
  destruct (bool_decide (App2.sidebar_search_terms ui = [])); [done|].
  destruct (bool_decide (App2.sidebar_sites ui = [])); [done|].
  unfold mbind, M_bind, result, clock_after, events.
  destruct (App2.search_loop W _ _ [] t) as [[all_jobs t'] log]. simpl.
  by rewrite app_nil_r.
Qed.

(** Case analysis on what a finished run of [main] returned. *)
Ltac outcome_cases :=
  unfold result, clock_after, events; cbn [fst snd];
  repeat match goal with
         | |- _ ∧ _ => split
         | |- _ ↔ _ => split
         | |- _ → _ => intro
         | H : ∃ _, _ |- _ => destruct H
         | H : _ ∧ _ |- _ => destruct H
         | H : _ ∨ _ |- _ => destruct H
         end;
  try discriminate; try congruence; eauto.

(** C8. With the button pressed, [main] stops with an error message
    exactly when no search term or no site is selected, and it does so
    before any adapter call, request or sleep; in every other case the
    run goes through to the display of the deduplicated list. Both files
    behave alike. *)
Theorem config_errors_block_before_any_request
    (W : World) (ui : App.sidebar) (ui2 : App2.sidebar) (t : Z) :
  (((∃ message, result (App.main W ui t) = ConfigError message)
    ↔ App.run_scraper ui = true
      ∧ (App.sidebar_search_terms ui = [] ∨ App.sidebar_sites W ui = []))
   ∧ ((∃ message, result (App.main W ui t) = ConfigError message) →
      events (App.main W ui t) = [] ∧ clock_after (App.main W ui t) = t)
   ∧ ((∃ unique_jobs, result (App.main W ui t) = Displayed unique_jobs)
      ↔ App.run_scraper ui = true
        ∧ App.sidebar_search_terms ui ≠ [] ∧ App.sidebar_sites W ui ≠ []))
  ∧ (((∃ message, result (App2.main W ui2 t) = ConfigError message)
      ↔ App2.run_scraper ui2 = true
        ∧ (App2.sidebar_search_terms ui2 = [] ∨ App2.sidebar_sites ui2 = []))
     ∧ ((∃ message, result (App2.main W ui2 t) = ConfigError message) →
        events (App2.main W ui2 t) = [] ∧ clock_after (App2.main W ui2 t) = t)
     ∧ ((∃ unique_jobs, result (App2.main W ui2 t) = Displayed unique_jobs)
        ↔ App2.run_scraper ui2 = true
          ∧ App2.sidebar_search_terms ui2 ≠ [] ∧ App2.sidebar_sites ui2 ≠ [])).
Proof.
  split.
  - rewrite app_main_cases. cbv zeta.
    destruct (App.run_scraper ui); [|outcome_cases].
    case_bool_decide as Hterms; [outcome_cases|].
    case_bool_decide as Hsites; outcome_cases.
  - rewrite app2_main_cases. cbv zeta.
    destruct (App2.run_scraper ui2); [|outcome_cases].
    case_bool_decide as Hterms; [outcome_cases|].
    case_bool_decide as Hsites; outcome_cases.
Qed.

Lemma app_main_events W ui t : Forall default_cap (events (App.main W ui t)).
Proof.
  rewrite app_main_cases. cbv zeta.
  destruct (App.run_scraper ui); [|constructor].
  case_bool_decide; [constructor|]. case_bool_decide; [constructor|].
  apply app_search_loop_spec.
Qed.

Lemma app2_main_events W ui t : Forall default_cap (events (App2.main W ui t)).
Proof.
  rewrite app2_main_cases. cbv zeta.
  destruct (App2.run_scraper ui); [|constructor].
  case_bool_decide; [constructor|]. case_bool_decide; [constructor|].
  apply app2_search_loop_spec.
Qed.

(** C9. The slider value [max_jobs_per_search] never reaches an adapter:
    two runs that differ only in it return the same records, clock and
    log, and every adapter call in the log carries the adapter's own
    default cap, 20 for the API (also sent as the request's limit) and 15
    for the HTML and Devex scrapes. Both files behave alike. *)
Theorem caller_cap_is_ignored
    (W : World) (term_checked : nat → bool) (custom_term : string)
    (reliefweb_checked devex_checked show_only_recent run_scraper : bool)
    (cap1 cap2 : nat) (t : Z) :
  let ui cap := App.mkSidebar term_checked custom_term reliefweb_checked
                  devex_checked cap run_scraper in
  let ui2 cap := App2.mkSidebar term_checked custom_term reliefweb_checked
                   cap show_only_recent run_scraper in
  App.main W (ui cap1) t = App.main W (ui cap2) t
  ∧ Forall (λ e, match e with
                 | Call ReliefwebApi _ max_jobs => max_jobs = 20%nat
                 | Call ReliefwebHtml _ max_jobs => max_jobs = 15%nat
                 | Call Devex _ max_jobs => max_jobs = 15%nat
                 | GetApi _ limit => limit = 20%nat
                 | GetPage _ | Sleep _ => True
                 end) (events (App.main W (ui cap1) t))
  ∧ App2.main W (ui2 cap1) t = App2.main W (ui2 cap2) t
  ∧ Forall (λ e, match e with
                 | Call ReliefwebApi _ max_jobs => max_jobs = 20%nat
                 | Call ReliefwebHtml _ max_jobs => max_jobs = 15%nat
                 | Call Devex _ max_jobs => max_jobs = 15%nat
                 | GetApi _ limit => limit = 20%nat
                 | GetPage _ | Sleep _ => True
                 end) (events (App2.main W (ui2 cap1) t)).
Proof.
  cbv zeta. split; [reflexivity|]. split; [apply app_main_events|].
  split; [reflexivity | apply app2_main_events].
Qed.

(** With the API listing a driver and a monitoring-and-evaluation
    officer, both records are normalised under distinct URLs, but only
    the officer reaches the output: the driver, scoring below 0.2, is
    dropped inside the pipeline. *)
Lemma low_relevance_record_is_dropped :
  (url <$> result (App.scrape_development_sites Samples.world_two_items
                     "public health" (Some ["reliefweb"]) 0%Z))
  = ["https://reliefweb.int/job/1"; "https://reliefweb.int/job/2"]
  ∧ ∃ unique_jobs,
      result (App.main Samples.world_two_items Samples.ui_one_term 0%Z)
      = Displayed unique_jobs
      ∧ (url <$> unique_jobs) = ["https://reliefweb.int/job/2"].
Proof.
  split; [vm_compute; reflexivity|].
  eexists. split; vm_compute; reflexivity.
Qed.

(** C1, amended. The deduplicated sequence that [main] hands to the
    display is filtered by relevance inside the pipeline: it is the
    duplicate-free reading of the records that passed
    [filter_public_health_jobs], so every record in it carries
    [is_public_health] true and a [relevance_score] of at least 0.2.
    Records scoring lower are scored but never accumulated. *)
Theorem displayed_jobs_passed_the_filter
    (W : World) (ui : App.sidebar) (t : Z) (unique_jobs : list Job) :
  result (App.main W ui t) = Displayed unique_jobs →
  unique_jobs
  = remove_duplicates
      (result (App.search_loop W (App.sidebar_search_terms ui)
                 (App.sidebar_sites W ui) [] t))
  ∧ Forall (λ job, is_public_health job = Some true
                   ∧ ∃ score, relevance_score job = Some score ∧ (0.2 <= score)%Q)
           unique_jobs.
Proof.
  rewrite app_main_cases. cbv zeta.
  destruct (App.run_scraper ui); [|intros [=]].
  case_bool_decide; [intros [=]|]. case_bool_decide; [intros [=]|].
  intros [= <-]. split; [done|].
  destruct (app_search_loop_spec W (App.sidebar_search_terms ui)
              (App.sidebar_sites W ui) [] t) as (_ & Hpassed).
  specialize (Hpassed (Forall_nil_2 _)).
  apply Forall_forall. intros job Hin%list_elem_of_In.
  apply remove_duplicates_In, list_elem_of_In in Hin.
  rewrite Forall_forall in Hpassed. by apply Hpassed.
Qed.

Lemma displayed_jobs_passed_the_filter_witness :
  Forall (λ job, is_public_health job = Some true
                 ∧ ∃ score, relevance_score job = Some score ∧ (0.2 <= score)%Q)
         [ mkJob "Public Health Monitoring and Evaluation Officer" "WHO"
                 "Multiple Locations" "https://reliefweb.int/job/2" "Unknown"
                 "reliefweb" 0 "public health" false (Some 0.22%Q) (Some true) ].
Proof.
  apply (displayed_jobs_passed_the_filter
           Samples.world_two_items Samples.ui_one_term 0%Z).
  vm_compute. reflexivity.
Defined.

(** * Further properties of the code *)

(** ** What the adapters keep *)

Lemma collect_length {A B} (keep : A → bool) (body : A → M (option B)) entries :
  (∀ x t, clock_after (body x t) = t
          ∧ (is_Some (result (body x t)) ↔ keep x = true)) →
  ∀ t, length (result (collect body entries t)) = length (List.filter keep entries).
Proof.
  intros Hbody. induction entries as [|x rest IH]; intros t; [done|].
  destruct (Hbody x t) as (Hc & Hkeep). cbn [collect List.filter].
  autorewrite with run. rewrite Hc.
  destruct (result (body x t)) as [job|]; destruct (keep x) eqn:Hk; simpl;
    rewrite ?IH; try done.
  - destruct Hkeep as [Hkeep _]. by specialize (Hkeep (mk_is_Some _ _ eq_refl)).
  - destruct Hkeep as [_ Hkeep]. by destruct (Hkeep eq_refl).
Qed.

Lemma filter_take_length {A} (keep : A → bool) (n : nat) (l : list A) :
  (length (List.filter keep (take n l)) ≤ n)%nat.
Proof.
  etrans; [apply filter_length_bound|]. rewrite length_take. lia.
Qed.

Lemma reliefweb_item_job_fresh term item t :
  clock_after (reliefweb_item_job term item t) = t
  ∧ events (reliefweb_item_job term item t) = []
  ∧ (is_Some (result (reliefweb_item_job term item t)) ↔ has_id item = true)
  ∧ ∀ job, result (reliefweb_item_job term item t) = Some job →
      source job = "reliefweb" ∧ search_term job = term
      ∧ scraped_at job = t
      ∧ is_recent job = is_recent_job (Some (date_posted job))
      ∧ location job ≠ ""
      ∧ relevance_score job = None ∧ is_public_health job = None.
Proof.
  unfold reliefweb_item_job, has_id. destruct (item_id item) as [id|].
  - autorewrite with run. split; [done|]. split; [done|]. split; [by split; eauto|].
    intros job Hjob.
    assert (∀ x y : Job, Some x = Some y → y = x) as Hinj by congruence.
    apply Hinj in Hjob. subst job.
    cbn [source search_term scraped_at is_recent date_posted location
         relevance_score is_public_health].
    repeat split; try done.
    destruct (PyStr.truthy _) eqn:Htruthy; [|done].
    intros Hempty. by rewrite Hempty in Htruthy.
  - autorewrite with run. split; [done|]. split; [done|].
    split; [split; [by intros [? ?]|done]|]. intros job Hjob. discriminate Hjob.
Qed.

Lemma collect_spec_at {A B} (P : Z → B → Prop) (body : A → M (option B)) entries :
  (∀ x t, clock_after (body x t) = t
          ∧ ∀ job, result (body x t) = Some job → P t job) →
  ∀ t, Forall (P t) (result (collect body entries t)).
Proof.
  intros Hbody. induction entries as [|x rest IH]; intros t; [constructor|].
  destruct (Hbody x t) as (Hc & Hr). cbn [collect].
  autorewrite with run. rewrite Hc.
  destruct (result (body x t)) as [job|] eqn:Hres; [|apply IH].
  constructor; [by apply Hr | apply IH].
Qed.

Lemma app_api_result W term n t :
  result (App.scrape_reliefweb_api W term n t)
  = match reliefweb_api W term n with
    | None => []
    | Some data => result (collect (reliefweb_item_job term) (take n data) t)
    end.
Proof.
  unfold App.scrape_reliefweb_api, reliefweb_api_try. autorewrite with run.
  destruct (reliefweb_api W term n); by autorewrite with run.
Qed.

Lemma app2_api_result W term n t :
  result (App2.scrape_reliefweb_api W term n t)
  = match reliefweb_api W term n with
    | None => result (App2.get_mock_jobs term t)
    | Some data => result (collect (reliefweb_item_job term) (take n data) t)
    end.
Proof.
  unfold App2.scrape_reliefweb_api, reliefweb_api_try. autorewrite with run.
  destruct (reliefweb_api W term n); by autorewrite with run.
Qed.

(** X1. Every record of app.py's API adapter is tagged "reliefweb", carries
    the query as [search_term] and the clock reading as [scraped_at], has
    [is_recent] as the classifier reads its [date_posted], a non-empty
    [location], and no relevance fields yet. *)
Theorem reliefweb_api_records_wellformed (W : World) (term : string) (n : nat) (t : Z) :
  Forall (λ job, source job = "reliefweb" ∧ search_term job = term
                 ∧ scraped_at job = t
                 ∧ is_recent job = is_recent_job (Some (date_posted job))
                 ∧ location job ≠ ""
                 ∧ relevance_score job = None ∧ is_public_health job = None)
         (result (App.scrape_reliefweb_api W term n t)).
Proof.
  rewrite app_api_result. destruct (reliefweb_api W term n) as [data|]; [|constructor].
  apply (collect_spec_at
           (λ t job, source job = "reliefweb" ∧ search_term job = term
                     ∧ scraped_at job = t
                     ∧ is_recent job = is_recent_job (Some (date_posted job))
                     ∧ location job ≠ ""
                     ∧ relevance_score job = None ∧ is_public_health job = None)).
  intros item t'.
  destruct (reliefweb_item_job_fresh term item t') as (Hc & _ & _ & Hjob).
  by split.
Qed.

(** X2. When the API answers, the adapter returns one record for each of
    the first [max_jobs] items that carries an id and skips the others,
    so it never returns more than [max_jobs] records. *)
Theorem reliefweb_api_keeps_items_with_id
    (W : World) (term : string) (max_jobs : nat) (t : Z) (data : list api_item) :
  reliefweb_api W term max_jobs = Some data →
  length (result (App.scrape_reliefweb_api W term max_jobs t))
  = length (List.filter has_id (take max_jobs data))
  ∧ (length (result (App.scrape_reliefweb_api W term max_jobs t)) ≤ max_jobs)%nat
  ∧ result (App2.scrape_reliefweb_api W term max_jobs t)
    = result (App.scrape_reliefweb_api W term max_jobs t).
Proof.
  intros Hdata. rewrite app_api_result, app2_api_result, Hdata.
  rewrite (collect_length has_id).
  - split; [done|]. split; [apply filter_take_length | done].
  - intros item t'.
    destruct (reliefweb_item_job_fresh term item t') as (Hc & _ & Hkeep & _).
    by split.
Qed.

Lemma reliefweb_api_keeps_items_with_id_witness :
  length (result (App.scrape_reliefweb_api MoreSamples.world_no_parser
                    "public health" 20 0%Z))
  = length (List.filter has_id
              (take 20 [ mkItem None None; mkItem (Some "9") None ])).
Proof.
  apply (reliefweb_api_keeps_items_with_id MoreSamples.world_no_parser
           "public health" 20 0%Z).
  reflexivity.
Defined.

Lemma reliefweb_article_job_fresh term job_element t :
  clock_after (App.reliefweb_article_job term job_element t) = t
  ∧ (is_Some (result (App.reliefweb_article_job term job_element t))
     ↔ has_title_link job_element = true)
  ∧ ∀ job, result (App.reliefweb_article_job term job_element t) = Some job →
      source job = "reliefweb" ∧ search_term job = term
      ∧ scraped_at job = t
      ∧ is_recent job = is_recent_job (Some (date_posted job))
      ∧ relevance_score job = None ∧ is_public_health job = None.
Proof.
  unfold App.reliefweb_article_job, has_title_link.
  destruct (art_h3 job_element) as [[title_elem|]|]; autorewrite with run.
  - split; [done|]. split; [by split; eauto|]. intros job Hjob.
    assert (∀ x y : Job, Some x = Some y → y = x) as Hinj by congruence.
    apply Hinj in Hjob. by subst job.
  - split; [done|]. split; [split; [by intros [? ?]|done]|].
    intros job Hjob. discriminate Hjob.
  - split; [done|]. split; [split; [by intros [? ?]|done]|].
    intros job Hjob. discriminate Hjob.
Qed.

Lemma app_html_result W term n t :
  result (App.scrape_reliefweb_html W term n t)
  = if BEAUTIFUL_SOUP_AVAILABLE W then
      match reliefweb_page W ("https://reliefweb.int/jobs?search="
                              +:+ PyStr.replace_space "+" term) with
      | None => []
      | Some found => result (collect (App.reliefweb_article_job term) (take n found) t)
      end
    else [].
Proof.
  unfold App.scrape_reliefweb_html. autorewrite with run.
  destruct (BEAUTIFUL_SOUP_AVAILABLE W); cbn [negb]; autorewrite with run; [|done].
  by destruct (reliefweb_page W _).
Qed.

(** X3. The HTML fallback returns one record for each of the first
    [max_jobs] articles that has a title link inside an h3, skipping the
    others; each record is tagged "reliefweb", carries the query, and has
    [is_recent] as the classifier reads its [date_posted]. Without the
    parser, or when the page cannot be fetched, it returns nothing. *)
Theorem reliefweb_html_keeps_titled_articles
    (W : World) (term : string) (max_jobs : nat) (t : Z) :
  let r := result (App.scrape_reliefweb_html W term max_jobs t) in
  let page := reliefweb_page W ("https://reliefweb.int/jobs?search="
                                +:+ PyStr.replace_space "+" term) in
  length r
  = (if BEAUTIFUL_SOUP_AVAILABLE W
     then length (List.filter has_title_link (take max_jobs (default [] page)))
     else 0%nat)
  ∧ (length r ≤ max_jobs)%nat
  ∧ Forall (λ job, source job = "reliefweb" ∧ search_term job = term
                   ∧ scraped_at job = t
                   ∧ is_recent job = is_recent_job (Some (date_posted job))
                   ∧ relevance_score job = None ∧ is_public_health job = None) r.
Proof.
  cbv zeta. rewrite app_html_result.
  destruct (BEAUTIFUL_SOUP_AVAILABLE W);
    [|split; [done|split; [simpl; lia|constructor]]].
  destruct (reliefweb_page W _) as [found|]; cbn [default];
    [|rewrite take_nil; split; [done|split; [simpl; lia|constructor]]].
  rewrite (collect_length has_title_link).
  2:{ intros x t'. destruct (reliefweb_article_job_fresh term x t') as (? & ? & _).
      by split. }
  split; [done|]. split; [apply filter_take_length|].
  apply (collect_spec_at
           (λ t job, source job = "reliefweb" ∧ search_term job = term
                     ∧ scraped_at job = t
                     ∧ is_recent job = is_recent_job (Some (date_posted job))
                     ∧ relevance_score job = None ∧ is_public_health job = None)).
  intros x t'. destruct (reliefweb_article_job_fresh term x t') as (? & _ & ?).
  by split.
Qed.
